(** * gradio-rerun-viewer: the event-payload parsers and the component adapter

    A shallow embedding of [backend/gradio_rerun/events.py],
    [backend/gradio_rerun/rerun.py] and of the callbacks of
    [demo/app.py], together with the properties the specification states
    about them and further properties read off the code.

    Python values are embedded as an inductive type, exceptions as an
    error result, the libraries the code calls into (pathlib, the
    gradio cache, the Rerun SDK, OpenCV) as interfaces. *)

From Stdlib Require Import ZArith String List Lia.
From Stdlib Require Import Floats.SpecFloat.
From stdpp Require Import base option list strings gmap.

#[local] Set Warnings "-register-all".
#[local] Open Scope string_scope.

(** * Python values, exceptions, subscripting *)

Module Py.

(** A value as the event parsers see it ([Any]): what [json.loads]
    produces (None, bool, int, float, str, list, dict with string keys),
    and tuples, which the parsers build themselves. *)
Inductive value : Type :=
  | VNone
  | VBool (b : bool)
  | VInt (n : Z)
  | VFloat (f : spec_float)
  | VStr (s : string)
  | VList (xs : list value)
  | VTuple (xs : list value)
  | VDict (fields : gmap string value).

(** What a subscript [x[k]] is indexed with.  [KBuiltinType] is the
    builtin class object [type], which is hashable and so a legal key. *)
Inductive key : Type :=
  | KStr (s : string)
  | KInt (i : Z)
  | KBuiltinType.

Inductive exn : Type :=
  | KeyError (k : key)
  | IndexError
  | TypeError
  | AttributeError
  | OSError (path : string)
  | ValueError
  | OverflowError
  (** [NotImplementedError(f"selection item kind {v} is not handled")],
      carrying the interpolated value [v]. *)
  | NotImplementedError (unhandled : value)
  (** [gradio.Error(message)] *)
  | GradioError (message : string).

Inductive result (A : Type) : Type :=
  | Ok (a : A)
  | Raise (e : exn).
Arguments Ok {A} a.
Arguments Raise {A} e.

#[global] Instance result_ret : MRet result := fun A a => Ok a.
#[global] Instance result_bind : MBind result :=
  fun A B f m => match m with Ok a => f a | Raise e => Raise e end.

(** [xs[i]] on a sequence: negative indices count from the end. *)
Definition seq_index {A : Type} (xs : list A) (i : Z) : result A :=
  let n := Z.of_nat (length xs) in
  let j := if (i <? 0)%Z then (i + n)%Z else i in
  if (j <? 0)%Z then Raise IndexError
  else match xs !! Z.to_nat j with
       | Some x => Ok x
       | None => Raise IndexError
       end.

(** A [str] is held as the UTF-8 encoding of its code points, which is
    what a Rocq string literal is.  Python indexes, iterates and slices
    a [str] by code point: a code point is a byte that is not a
    continuation byte (10xxxxxx), with the continuation bytes after it. *)
Definition is_continuation (c : Ascii.ascii) : bool :=
  match c with
  | Ascii.Ascii _ _ _ _ _ _ false true => true
  | _ => false
  end.

(** The continuation bytes [s] starts with, and the code points after
    them. *)
Fixpoint code_points_from (s : string) : string * list string :=
  match s with
  | EmptyString => (EmptyString, [])
  | String c rest =>
      let '(pending, points) := code_points_from rest in
      if is_continuation c then (String c pending, points)
      else (EmptyString, String c pending :: points)
  end.

(** The code points of [s], each as a string of one character. *)
Definition code_points (s : string) : list string :=
  let '(pending, points) := code_points_from s in
  match pending with
  | EmptyString => points
  | _ => pending :: points
  end.

Definition chars (s : string) : list value := VStr <$> code_points s.

(** [x[k]] *)
Definition getitem (x : value) (k : key) : result value :=
  match x with
  | VDict fields =>
      match k with
      | KStr s =>
          match fields !! s with
          | Some v => Ok v
          | None => Raise (KeyError k)
          end
      | _ => Raise (KeyError k)
      end
  | VList xs | VTuple xs =>
      match k with
      | KInt i => seq_index xs i
      | _ => Raise TypeError
      end
  | VStr s =>
      match k with
      | KInt i => seq_index (chars s) i
      | _ => Raise TypeError
      end
  | _ => Raise TypeError
  end.

(** [x.get(k, None)] *)
Definition get (x : value) (k : string) : result value :=
  match x with
  | VDict fields => Ok (default VNone (fields !! k))
  | _ => Raise AttributeError
  end.

(** [x == "s"] for a string literal *)
Definition eq_str (x : value) (s : string) : bool :=
  match x with
  | VStr t => String.eqb t s
  | _ => false
  end.

(** [x is not None] *)
Definition is_not_None (x : value) : bool :=
  match x with
  | VNone => false
  | _ => true
  end.

(** The elements [for item in x] goes through.  A dict yields its keys;
    a gmap does not keep their insertion order. *)
Definition iter (x : value) : result (list value) :=
  match x with
  | VList xs | VTuple xs => Ok xs
  | VStr s => Ok (chars s)
  | VDict fields => Ok (VStr <$> (map_to_list fields).*1)
  | _ => Raise TypeError
  end.

(** A list comprehension [[f(item) for item in xs]]: the first raise
    ends it. *)
Fixpoint comprehension {A B : Type} (f : A -> result B) (xs : list A)
  : result (list B) :=
  match xs with
  | [] => Ok []
  | x :: rest =>
      y ← f x;
      ys ← comprehension f rest;
      mret (y :: ys)
  end.

(** [gradio.EventData]: its constructor stores its two arguments. *)
Record EventData (Block : Type) : Type := mkEventData
  { target : Block;
    _data : value }.
Arguments mkEventData {Block} target _data.
Arguments target {Block} e.
Arguments _data {Block} e.

End Py.

Import Py.

(** * events.py *)

Module events.

Module EntitySelection.
Record t : Type := mk
  { entity_path : value;
    instance_id : value;
    view_name : value;
    position : value }.
Definition kind (self : t) : string := "entity".
End EntitySelection.

Module ViewSelection.
Record t : Type := mk
  { view_id : value;
    view_name : value }.
Definition kind (self : t) : string := "view".
End ViewSelection.

Module ContainerSelection.
Record t : Type := mk
  { container_id : value;
    container_name : value }.
Definition kind (self : t) : string := "container".
End ContainerSelection.

(** [SelectionItem = EntitySelection | ViewSelection | ContainerSelection] *)
Inductive SelectionItem : Type :=
  | Entity (e : EntitySelection.t)
  | View (v : ViewSelection.t)
  | Container (c : ContainerSelection.t).

(** [item.kind], dispatched on the class of [item] *)
Definition kind (item : SelectionItem) : string :=
  match item with
  | Entity e => EntitySelection.kind e
  | View v => ViewSelection.kind v
  | Container c => ContainerSelection.kind c
  end.

(** The fields of the dataclass, by name, in declaration order. *)
Definition fields (item : SelectionItem) : list (string * value) :=
  match item with
  | Entity e =>
      [("entity_path", EntitySelection.entity_path e);
       ("instance_id", EntitySelection.instance_id e);
       ("view_name", EntitySelection.view_name e);
       ("position", EntitySelection.position e)]
  | View v =>
      [("view_id", ViewSelection.view_id v);
       ("view_name", ViewSelection.view_name v)]
  | Container c =>
      [("container_id", ContainerSelection.container_id c);
       ("container_name", ContainerSelection.container_name c)]
  end.

Definition _selection_item_from_json (json : value) : result SelectionItem :=
  ty ← getitem json (KStr "type");
  if eq_str ty "entity" then
    position ← get json "position";
    entity_path ← getitem json (KStr "entity_path");
    instance_id ← get json "instance_id";
    view_name ← get json "view_name";
    position ←
      (if is_not_None position then
         p0 ← getitem position (KInt 0);
         p1 ← getitem position (KInt 1);
         p2 ← getitem position (KInt 2);
         mret (VTuple [p0; p1; p2])
       else mret VNone);
    mret (Entity (EntitySelection.mk entity_path instance_id view_name position))
  else
    ty ← getitem json (KStr "type");
    if eq_str ty "view" then
      view_id ← getitem json (KStr "view_id");
      view_name ← getitem json (KStr "view_name");
      mret (View (ViewSelection.mk view_id view_name))
    else
      ty ← getitem json (KStr "type");
      if eq_str ty "container" then
        container_id ← getitem json (KStr "container_id");
        container_name ← getitem json (KStr "container_name");
        mret (Container (ContainerSelection.mk container_id container_name))
      else
        (* the f-string subscripts json with the builtin [type] *)
        unhandled ← getitem json KBuiltinType;
        Raise (NotImplementedError unhandled).

Module SelectionChange.
Record t (Block : Type) : Type := mk
  { base : EventData Block;
    items : list SelectionItem }.
Arguments mk {Block} base items.
Arguments base {Block} _.
Arguments items {Block} _.

Definition __init__ {Block : Type} (target : Block) (data : value)
  : result (t Block) :=
  let base := mkEventData target data in
  elements ← iter data;
  items ← comprehension _selection_item_from_json elements;
  mret (mk base items).
End SelectionChange.

Module TimeUpdate.
Record t (Block : Type) : Type := mk
  { base : EventData Block;
    time : value }.
Arguments mk {Block} base time.
Arguments base {Block} _.
Arguments time {Block} _.

Definition __init__ {Block : Type} (target : Block) (data : value)
  : result (t Block) :=
  let base := mkEventData target data in
  mret (mk base data).
End TimeUpdate.

Module TimelineChange.
Record t (Block : Type) : Type := mk
  { base : EventData Block;
    timeline : value;
    time : value }.
Arguments mk {Block} base timeline time.
Arguments base {Block} _.
Arguments timeline {Block} _.
Arguments time {Block} _.

Definition __init__ {Block : Type} (target : Block) (data : value)
  : result (t Block) :=
  let base := mkEventData target data in
  timeline ← getitem data (KStr "timeline");
  time ← getitem data (KStr "time");
  mret (mk base timeline time).
End TimelineChange.

End events.

(** * rerun.py *)

Module rerun.

(** ** The duplicated selection classes and their parser *)

Module EntitySelection.
Record t : Type := mk
  { entity_path : value;
    instance_id : value;
    view_name : value;
    position : value }.
Definition kind (self : t) : string := "entity".
End EntitySelection.

Module ViewSelection.
Record t : Type := mk
  { view_id : value;
    view_name : value }.
Definition kind (self : t) : string := "view".
End ViewSelection.

Module ContainerSelection.
Record t : Type := mk
  { container_id : value;
    container_name : value }.
Definition kind (self : t) : string := "container".
End ContainerSelection.

Inductive SelectionItem : Type :=
  | Entity (e : EntitySelection.t)
  | View (v : ViewSelection.t)
  | Container (c : ContainerSelection.t).

Definition kind (item : SelectionItem) : string :=
  match item with
  | Entity e => EntitySelection.kind e
  | View v => ViewSelection.kind v
  | Container c => ContainerSelection.kind c
  end.

Definition fields (item : SelectionItem) : list (string * value) :=
  match item with
  | Entity e =>
      [("entity_path", EntitySelection.entity_path e);
       ("instance_id", EntitySelection.instance_id e);
       ("view_name", EntitySelection.view_name e);
       ("position", EntitySelection.position e)]
  | View v =>
      [("view_id", ViewSelection.view_id v);
       ("view_name", ViewSelection.view_name v)]
  | Container c =>
      [("container_id", ContainerSelection.container_id c);
       ("container_name", ContainerSelection.container_name c)]
  end.

Definition _selection_item_from_json (json : value) : result SelectionItem :=
  ty ← getitem json (KStr "type");
  if eq_str ty "entity" then
    position ← get json "position";
    entity_path ← getitem json (KStr "entity_path");
    instance_id ← get json "instance_id";
    view_name ← get json "view_name";
    position ←
      (if is_not_None position then
         p0 ← getitem position (KInt 0);
         p1 ← getitem position (KInt 1);
         p2 ← getitem position (KInt 2);
         mret (VTuple [p0; p1; p2])
       else mret VNone);
    mret (Entity (EntitySelection.mk entity_path instance_id view_name position))
  else
    ty ← getitem json (KStr "type");
    if eq_str ty "view" then
      view_id ← getitem json (KStr "view_id");
      view_name ← getitem json (KStr "view_name");
      mret (View (ViewSelection.mk view_id view_name))
    else
      ty ← getitem json (KStr "type");
      if eq_str ty "container" then
        container_id ← getitem json (KStr "container_id");
        container_name ← getitem json (KStr "container_name");
        mret (Container (ContainerSelection.mk container_id container_name))
      else
        unhandled ← getitem json KBuiltinType;
        Raise (NotImplementedError unhandled).

Module SelectionItems.
Record t (Block : Type) : Type := mk
  { base : EventData Block;
    items : list SelectionItem }.
Arguments mk {Block} base items.
Arguments base {Block} _.
Arguments items {Block} _.

Definition __init__ {Block : Type} (target : Block) (data : value)
  : result (t Block) :=
  let base := mkEventData target data in
  elements ← iter data;
  items ← comprehension _selection_item_from_json elements;
  mret (mk base items).
End SelectionItems.

(** ** The data model *)

Definition bytes : Type := list Byte.byte.

(** A [pathlib.Path], held as the string [str(p)] gives. *)
Record Path : Type := mkPath { path_str : string }.

(** One element of the declared argument type [Path | str]. *)
Inductive source : Type :=
  | SPath (p : Path)
  | SStr (s : string).

(** The argument of [postprocess]:
    [list[Path | str] | Path | str | bytes], and [None], which the body
    tests for. *)
Inductive arg : Type :=
  | ANone
  | ABytes (b : bytes)
  | ASource (x : source)
  | AList (xs : list source).

(** [gradio.data_classes.FileData], with the fields the component
    sets; a field left out of the constructor call is [None]. *)
Record FileData : Type := mkFileData
  { path : string;
    orig_name : option string;
    size : option Z }.

(** An element of [root : list[FileData | str]]: a [FileData] built by
    the component, or the input element itself, kept. *)
Inductive entry : Type :=
  | EFile (f : FileData)
  | EKeep (file : source).

Record RerunData : Type := mkRerunData { root : list entry }.

(** [RerunData | bytes] *)
Inductive output : Type :=
  | OData (d : RerunData)
  | OBytes (b : bytes).

(** What the component calls outside this repository: pathlib on the
    file system, and the gradio cache. *)
Class Host : Type :=
  { FS : Type;
    (** [Path(s)] for a string [s] *)
    Path_of_str : string -> Path;
    (** [p.name] *)
    Path_name : Path -> string;
    (** [p.stat().st_size]; [None] when [stat] raises *)
    st_size : FS -> Path -> option Z;
    (** what [p.stat()] raises then: [OSError] for a file that is not
        there or cannot be reached, [ValueError] for a path with a null
        character in it *)
    stat_error : FS -> Path -> exn;
    (** [processing_utils.save_bytes_to_cache(data, file_name, cache_dir)]:
        the path written to, and the file system after the write *)
    save_bytes_to_cache : bytes -> string -> string -> FS -> string * FS }.

(** The attributes of a [Rerun] component that its methods read. *)
Record Rerun : Type := mkRerun
  { height : value;
    streaming : bool;
    panel_states : value;
    GRADIO_CACHE : string }.

Section Component.
Context `{Host}.

(** [Rerun(...)]: the constructor stores [height], [streaming] and
    [panel_states]; [GRADIO_CACHE] is set by the base class. *)
Definition __init__ (height : value) (streaming : bool) (panel_states : value)
    (cache : string) : Rerun :=
  mkRerun height streaming panel_states cache.

Definition preprocess (self : Rerun) (payload : option RerunData)
  : option RerunData :=
  match payload with
  | None => None
  | Some p => Some p
  end.

(** [str(file)] *)
Definition str (file : source) : string :=
  match file with
  | SPath p => path_str p
  | SStr s => s
  end.

(** [Path(file)] *)
Definition Path_ (file : source) : Path :=
  match file with
  | SPath p => p
  | SStr s => Path_of_str s
  end.

Definition is_url (input : source) : bool :=
  match input with
  | SPath _ => false
  | SStr s => String.prefix "http://" s || String.prefix "https://" s
  end.

(** One element of the comprehension in [postprocess]. *)
Definition root_entry (fs : FS) (file : source) : result entry :=
  if negb (is_url file) then
    let path := str file in
    let orig_name := Path_name (Path_ file) in
    match st_size fs (Path_ file) with
    | Some size => Ok (EFile (mkFileData path (Some orig_name) (Some size)))
    | None => Raise (stat_error fs (Path_ file))
    end
  else Ok (EKeep file).

Definition postprocess (self : Rerun) (value : arg) (fs : FS)
  : result output * FS :=
  match value with
  | ANone => (Ok (OData (mkRerunData [])), fs)
  | ABytes b =>
      if streaming self then (Ok (OBytes b), fs)
      else
        let '(file_path, fs') :=
          save_bytes_to_cache b "rrd" (GRADIO_CACHE self) fs in
        (Ok (OData (mkRerunData [EFile (mkFileData file_path None None)])), fs')
  | ASource x =>
      let value := [x] in
      (root ← comprehension (root_entry fs) value;
       mret (OData (mkRerunData root)), fs)
  | AList value =>
      (root ← comprehension (root_entry fs) value;
       mret (OData (mkRerunData root)), fs)
  end.

Definition check_streamable (self : Rerun) : bool := streaming self.

(** [get_config]: the configuration of the base class, given here as
    the dict [super().get_config()] returns, with one more entry. *)
Definition get_config (super_get_config : gmap string value) (self : Rerun)
  : gmap string value :=
  let config := super_get_config in
  <["panel_states" := panel_states self]> config.

(** [gradio.data_classes.MediaStreamChunk] *)
Record MediaStreamChunk : Type := mkMediaStreamChunk
  { data : bytes;
    duration : spec_float;
    extension : string }.

(** The float literal [0.1]: 0x1999999999999A * 2^-56. *)
Definition duration_0_1 : spec_float :=
  S754_finite false 7205759403792794 (-56).

(** [stream_output]: the chunk for the viewer, or [None], and the
    description of the stream as a dict. *)
Definition stream_output (self : Rerun) (value : option bytes)
    (output_id : string) (first_chunk : bool)
  : option MediaStreamChunk * Py.value :=
  let output_file :=
    VDict (list_to_map
      [("path", VStr output_id);
       ("is_stream", VBool true);
       ("orig_name", VStr "recording.rrd");
       ("meta", VDict (list_to_map [("_type", VStr "gradio.FileData")]))]) in
  match value with
  | None => (None, output_file)
  | Some value =>
      (Some (mkMediaStreamChunk value duration_0_1 ".ts"), output_file)
  end.

(** [combine_stream] returns [None] whatever it is given. *)
Definition combine_stream (self : Rerun) (stream : list bytes)
    (desired_output_format : option string) (only_file : bool)
  : option RerunData :=
  None.

Definition example_payload (self : Rerun) : list entry := [].

Definition example_value (self : Rerun) : arg :=
  AList
    [SStr "https://app.rerun.io/version/0.16.0/examples/detect_and_track_objects.rrd";
     SStr "https://app.rerun.io/version/0.16.0/examples/dna.rrd"].

End Component.

End rerun.

(** * demo/app.py: the streaming callback *)

Module app.

Import rerun.

(** [rerun.blueprint]: the two constructors the demo uses. *)
Inductive View : Type :=
  | Spatial2DView (origin : string)
  | Horizontal (contents : list View).

Record Blueprint : Type := mkBlueprint
  { contents : View;
    collapse_panels : bool }.

(** What the demo calls outside this repository: the Rerun SDK, whose
    recording streams and binary streams are handles into a state
    [World], and OpenCV's blur. *)
Class Sdk : Type :=
  { World : Type;
    RecordingStream : Type;
    BinaryStream : Type;
    Image : Type;
    (** [rr.RecordingStream(application_id=a, recording_id=r)] *)
    RecordingStream_new : string -> string -> World -> RecordingStream * World;
    (** [rec.binary_stream()] *)
    binary_stream : RecordingStream -> World -> BinaryStream * World;
    (** [rec.send_blueprint(b)] *)
    send_blueprint : RecordingStream -> Blueprint -> World -> World;
    (** [rec.set_time(timeline, sequence=i)] for an [i] that fits the
        signed 64-bit integer the SDK takes *)
    set_time_sequence : RecordingStream -> string -> Z -> World -> World;
    (** [rec.log(path, rr.Image(img))] *)
    log_image : RecordingStream -> string -> Image -> World -> World;
    (** [stream.read()] *)
    read : BinaryStream -> World -> bytes * World;
    (** [stream.flush()] *)
    flush : BinaryStream -> World -> World;
    (** [cv2.GaussianBlur(img, (5, 5), 0)] *)
    GaussianBlur : Image -> Image }.

Section Generators.
Context `{Sdk}.

(** A generator body runs on the SDK state and the chunks yielded so
    far; it ends by returning or by raising. *)
Record gstate : Type := mkGstate
  { world : World;
    yielded : list bytes }.

Definition gen (A : Type) : Type := gstate -> result A * gstate.

#[global] Instance gen_ret : MRet gen := fun A a s => (Ok a, s).
#[global] Instance gen_bind : MBind gen :=
  fun A B f m s =>
    match m s with
    | (Ok a, s') => f a s'
    | (Raise e, s') => (Raise e, s')
    end.

Definition call {A : Type} (f : World -> A * World) : gen A :=
  fun s => let '(a, w) := f (world s) in (Ok a, mkGstate w (yielded s)).

Definition exec (f : World -> World) : gen unit :=
  fun s => (Ok tt, mkGstate (f (world s)) (yielded s)).

Definition yield (chunk : bytes) : gen unit :=
  fun s => (Ok tt, mkGstate (world s) (yielded s ++ [chunk])).

Definition raise {A : Type} (e : exn) : gen A :=
  fun s => (Raise e, s).

(** A call into the SDK that may raise. *)
Definition attempt {A : Type} (f : World -> result A * World) : gen A :=
  fun s => let '(r, w) := f (world s) in (r, mkGstate w (yielded s)).

(** An integer that fits in 64 bits, signed. *)
Definition int64 (n : Z) : bool :=
  ((- 2 ^ 63 <=? n) && (n <? 2 ^ 63))%Z.

(** [rec.set_time(timeline, sequence=i)]: an [i] that does not fit in
    64 bits is refused with [OverflowError]. *)
Definition set_time (rec : RecordingStream) (timeline : string) (sequence : Z)
  : gen unit :=
  if int64 sequence then exec (set_time_sequence rec timeline sequence)
  else raise OverflowError.

(** [time.sleep(seconds)]: time is not part of the state. *)
Definition sleep : gen unit := mret tt.

(** [for x in xs: acc = body(x, acc)] *)
Fixpoint for_in {A S : Type} (xs : list A) (body : A -> S -> gen S) (acc : S)
  : gen S :=
  match xs with
  | [] => mret acc
  | x :: rest => acc' ← body x acc; for_in rest body acc'
  end.

(** [range(n)] *)
Definition range (n : nat) : list Z := Z.of_nat <$> seq 0 n.

Definition get_recording (recording_id : string)
  : World -> RecordingStream * World :=
  RecordingStream_new "rerun_example_gradio" recording_id.

Definition streaming_repeated_blur (recording_id : string) (img : option Image)
  : gen unit :=
  rec ← call (get_recording recording_id);
  stream ← call (binary_stream rec);
  match img with
  | None => raise (GradioError "Must provide an image to blur.")
  | Some img =>
      let blueprint :=
        mkBlueprint
          (Horizontal [Spatial2DView "image/original";
                       Spatial2DView "image/blurred"])
          true in
      exec (send_blueprint rec blueprint);;
      set_time rec "iteration" 0%Z;;
      exec (log_image rec "image/original" img);;
      chunk ← call (read stream);
      yield chunk;;
      let blur := img in
      blur ← for_in (range 100)
        (fun i blur =>
           set_time rec "iteration" i;;
           sleep;;
           let blur := GaussianBlur blur in
           exec (log_image rec "image/blurred" blur);;
           chunk ← call (read stream);
           yield chunk;;
           mret blur)
        blur;
      exec (flush stream);;
      chunk ← call (read stream);
      yield chunk
  end.

(** Driving a generator to its end from a fresh start. *)
Definition run {A : Type} (g : gen A) (w : World) : result A * gstate :=
  g (mkGstate w []).

End Generators.

(** ** The keypoints of each session *)

(** [gr.Request], with the attribute the demo reads. *)
Record Request : Type := mkRequest { session_hash : string }.

(** The module-level dict
    [keypoints_per_session_per_sequence_index : dict[str, dict[int, list]]]. *)
Abbreviation Keypoints := (gmap string (gmap Z (list value))).

(** The list returned is the one the dict holds: a later [append] on it
    is a change of the dict (see [append_keypoint]). *)
Definition get_keypoints_for_user_at_sequence_index (request : Request)
    (sequence : Z) (keypoints_per_session_per_sequence_index : Keypoints)
  : result (list value) * Keypoints :=
  match keypoints_per_session_per_sequence_index !! session_hash request with
  | None =>
      (Raise (KeyError (KStr (session_hash request))),
       keypoints_per_session_per_sequence_index)
  | Some per_sequence =>
      match per_sequence !! sequence with
      | None =>
          (Ok [],
           <[session_hash request := <[sequence := []]> per_sequence]>
             keypoints_per_session_per_sequence_index)
      | Some keypoints =>
          (Ok keypoints, keypoints_per_session_per_sequence_index)
      end
  end.

(** [keypoints.append(x)] on the list that
    [get_keypoints_for_user_at_sequence_index(request, sequence)]
    returned. *)
Definition append_keypoint (request : Request) (sequence : Z) (x : value)
    (keypoints_per_session_per_sequence_index : Keypoints) : Keypoints :=
  alter (alter (fun keypoints => (keypoints ++ [x])%list) sequence)
        (session_hash request) keypoints_per_session_per_sequence_index.

Definition initialize_instance (request : Request)
    (keypoints_per_session_per_sequence_index : Keypoints) : Keypoints :=
  <[session_hash request := ∅]> keypoints_per_session_per_sequence_index.

Definition cleanup_instance (request : Request)
    (keypoints_per_session_per_sequence_index : Keypoints) : Keypoints :=
  if bool_decide
       (is_Some (keypoints_per_session_per_sequence_index !! session_hash request))
  then delete (session_hash request) keypoints_per_session_per_sequence_index
  else keypoints_per_session_per_sequence_index.

(** ** The event callbacks *)

Definition track_current_time {Block : Type} (evt : events.TimeUpdate.t Block)
  : value :=
  events.TimeUpdate.time evt.

Definition track_current_timeline_and_time {Block : Type}
    (evt : events.TimelineChange.t Block) : value * value :=
  (events.TimelineChange.timeline evt, events.TimelineChange.time evt).

(** [item.position] and [item.entity_path]: attributes of
    [EntitySelection] only. *)
Definition item_position (item : events.SelectionItem) : result value :=
  match item with
  | events.Entity e => Ok (events.EntitySelection.position e)
  | _ => Raise AttributeError
  end.

Definition item_entity_path (item : events.SelectionItem) : result value :=
  match item with
  | events.Entity e => Ok (events.EntitySelection.entity_path e)
  | _ => Raise AttributeError
  end.

(** What [register_keypoint] uses of Python itself. *)
Class Builtins : Type :=
  { (** [math.floor(x)] *)
    math_floor : value -> result Z;
    (** the text an f-string puts for [{x}] *)
    format_value : value -> string;
    (** what [d[0:2]] raises on a dict, which depends on the version of
        Python *)
    dict_slice_error : exn }.

(** [rec.log(path, rr.Points2D(points, radii=r))], which raises when
    the points are not what [Points2D] takes. *)
Class PointsSdk `{Sdk} : Type :=
  { log_points :
      RecordingStream -> string -> list value -> Z -> World
      -> result unit * World }.

Section Handlers.
Context `{PointsSdk} `{Builtins}.

(** [x[0:2]] *)
Definition slice_0_2 (x : value) : result value :=
  match x with
  | VList xs => Ok (VList (take 2 xs))
  | VTuple xs => Ok (VTuple (take 2 xs))
  | VStr s => Ok (VStr (String.concat "" (take 2 (code_points s))))
  | VDict _ => Raise dict_slice_error
  | _ => Raise TypeError
  end.

(** A callback that is a generator and touches the module-level dict
    runs on both states. *)
Record hstate : Type := mkHstate
  { generator : gstate;
    keypoints_per_session_per_sequence_index : Keypoints }.

Definition handler (A : Type) : Type := hstate -> result A * hstate.

#[global] Instance handler_ret : MRet handler := fun A a s => (Ok a, s).
#[global] Instance handler_bind : MBind handler :=
  fun A B f m s =>
    match m s with
    | (Ok a, s') => f a s'
    | (Raise e, s') => (Raise e, s')
    end.

Definition in_generator {A : Type} (g : gen A) : handler A :=
  fun s =>
    let '(r, g') := g (generator s) in
    (r, mkHstate g' (keypoints_per_session_per_sequence_index s)).

Definition on_keypoints {A : Type} (f : Keypoints -> result A * Keypoints)
  : handler A :=
  fun s =>
    let '(r, k') := f (keypoints_per_session_per_sequence_index s) in
    (r, mkHstate (generator s) k').

Definition try_ {A : Type} (r : result A) : handler A :=
  fun s => (r, s).

Definition register_keypoint {Block : Type} (active_recording_id : string)
    (current_timeline current_time : value) (request : Request)
    (evt : events.SelectionChange.t Block) : handler unit :=
  if String.eqb active_recording_id "" then mret tt
  else if negb (eq_str current_timeline "iteration") then mret tt
  else if negb (Nat.eqb (length (events.SelectionChange.items evt)) 1) then mret tt
  else
    item ← try_ (seq_index (events.SelectionChange.items evt) 0);
    if negb (String.eqb (events.kind item) "entity") then mret tt
    else
      position ← try_ (item_position item);
      if negb (is_not_None position) then mret tt
      else
        rec ← in_generator (call (get_recording active_recording_id));
        stream ← in_generator (call (binary_stream rec));
        index ← try_ (math_floor current_time);
        keypoints ← on_keypoints
          (get_keypoints_for_user_at_sequence_index request index);
        position ← try_ (item_position item);
        keypoint ← try_ (slice_0_2 position);
        on_keypoints (fun k => (Ok tt, append_keypoint request index keypoint k));;
        let keypoints := (keypoints ++ [keypoint])%list in
        in_generator (set_time rec "iteration" index);;
        entity_path ← try_ (item_entity_path item);
        in_generator
          (attempt (log_points rec (format_value entity_path ++ "/keypoint")
                      keypoints 2%Z));;
        in_generator (exec (flush stream));;
        chunk ← in_generator (call (read stream));
        in_generator (yield chunk).


(** Driving a callback to its end, with nothing yielded yet. *)
Definition run_handler {A : Type} (h : handler A) (w : World) (k : Keypoints)
  : result A * hstate :=
  h (mkHstate (mkGstate w []) k).

End Handlers.

End app.

(** * What the specification says, as predicates *)

Module Spec.

(** The JSON object [json] has the key [k]. *)
Definition has_key (json : value) (k : string) : bool :=
  match json with
  | VDict fields => bool_decide (is_Some (fields !! k))
  | _ => false
  end.

(** A well-formed selection item: an object whose "type" is "entity",
    "view" or "container" and whose required fields are present. *)
Definition well_formed (json : value) : bool :=
  match json with
  | VDict fields =>
      match fields !! "type" with
      | Some (VStr ty) =>
          if String.eqb ty "entity" then has_key json "entity_path"
          else if String.eqb ty "view" then
            has_key json "view_id" && has_key json "view_name"
          else if String.eqb ty "container" then
            has_key json "container_id" && has_key json "container_name"
          else false
      | _ => false
      end
  | _ => false
  end.

Definition is_Ok {A : Type} (r : result A) : bool :=
  match r with
  | Ok _ => true
  | Raise _ => false
  end.

(** The first three components of [position] can be read. *)
Definition three_components (position : value) : bool :=
  is_Ok (getitem position (KInt 0))
  && is_Ok (getitem position (KInt 1))
  && is_Ok (getitem position (KInt 2)).

(** The "position" of an entity object, when there is one and it is not
    null, has three components.  The position of any other object is
    not looked at. *)
Definition position_readable (json : value) : bool :=
  match json with
  | VDict fields =>
      if eq_str (default VNone (fields !! "type")) "entity" then
        match fields !! "position" with
        | None | Some VNone => true
        | Some position => three_components position
        end
      else true
  | _ => true
  end.

(** What the "position" of an entity item is turned into: [None] when
    the key is absent or null, else the 3-tuple of its first three
    components. *)
Definition entity_position (fields : gmap string value) (position : value)
  : Prop :=
  match fields !! "position" with
  | None | Some VNone => position = VNone
  | Some p =>
      exists p0 p1 p2,
        getitem p (KInt 0) = Ok p0
        /\ getitem p (KInt 1) = Ok p1
        /\ getitem p (KInt 2) = Ok p2
        /\ position = VTuple [p0; p1; p2]
  end.

(** A string that starts with "http://" or "https://". *)
Definition url_string (x : rerun.source) : Prop :=
  exists s, x = rerun.SStr s
    /\ (String.prefix "http://" s = true \/ String.prefix "https://" s = true).

(** The elements of an argument that is a Path, a string, or a list of
    them. *)
Definition elements (value : rerun.arg) : option (list rerun.source) :=
  match value with
  | rerun.ASource x => Some [x]
  | rerun.AList xs => Some xs
  | _ => None
  end.

(** Two selection items of the two modules carry the same kind and the
    same field values. *)
Definition same_item (a : events.SelectionItem) (b : rerun.SelectionItem)
  : Prop :=
  events.kind a = rerun.kind b /\ events.fields a = rerun.fields b.

(** Both parsers return matching items, or both raise the same
    exception. *)
Definition same_outcome (r1 : result events.SelectionItem)
    (r2 : result rerun.SelectionItem) : Prop :=
  match r1, r2 with
  | Ok a, Ok b => same_item a b
  | Raise e1, Raise e2 => e1 = e2
  | _, _ => False
  end.

(** A JSON object. *)
Definition is_dict (json : value) : bool :=
  match json with
  | VDict _ => true
  | _ => false
  end.

(** The keys [_selection_item_from_json] looks up. *)
Definition parser_keys : list string :=
  ["type"; "position"; "entity_path"; "instance_id"; "view_name";
   "view_id"; "container_id"; "container_name"].

(** The exceptions subscripting can end in. *)
Definition lookup_error (e : exn) : Prop :=
  e = TypeError \/ e = IndexError \/ exists k, e = KeyError k.

(** The keypoints the demo holds for a session at an index, if any. *)
Definition recorded (k : app.Keypoints) (request : app.Request) (sequence : Z)
  : option (list value) :=
  k !! app.session_hash request ≫= fun per_sequence => per_sequence !! sequence.

(** Two selection events of the two modules: the same stored arguments
    and, item by item, the same kinds and fields. *)
Definition same_event {Block : Type}
    (r1 : result (events.SelectionChange.t Block))
    (r2 : result (rerun.SelectionItems.t Block)) : Prop :=
  match r1, r2 with
  | Ok a, Ok b =>
      events.SelectionChange.base a = rerun.SelectionItems.base b
      /\ Forall2 same_item (events.SelectionChange.items a)
                          (rerun.SelectionItems.items b)
  | Raise e1, Raise e2 => e1 = e2
  | _, _ => False
  end.

End Spec.

(** * Concrete inputs and a small in-memory host, to run the model on *)

Module Samples.

Import rerun.

Definition dict (kvs : list (string * value)) : value :=
  VDict (list_to_map kvs).

(** [{"type": "mesh"}] *)
Definition mesh_item : value := dict [("type", VStr "mesh")].

(** [{"type": "entity", "entity_path": "world/points", "position": [1, 2, 3, 4]}] *)
Definition entity_item : value :=
  dict [("type", VStr "entity"); ("entity_path", VStr "world/points");
        ("position", VList [VInt 1; VInt 2; VInt 3; VInt 4])].

(** [{"type": "view", "view_id": "v1", "view_name": "3D"}] *)
Definition view_item : value :=
  dict [("type", VStr "view"); ("view_id", VStr "v1"); ("view_name", VStr "3D")].

(** [{"type": "container", "container_id": "c1", "container_name": "Grid"}] *)
Definition container_item : value :=
  dict [("type", VStr "container"); ("container_id", VStr "c1");
        ("container_name", VStr "Grid")].

(** [{"type": "entity", "entity_path": "world/points", "position": [1, 2]}] *)
Definition short_position_item : value :=
  dict [("type", VStr "entity"); ("entity_path", VStr "world/points");
        ("position", VList [VInt 1; VInt 2])].

(** [{"timeline": "iteration", "time": 3}] *)
Definition timeline_payload : gmap string value :=
  list_to_map [("timeline", VStr "iteration"); ("time", VInt 3)].

(** [{"time": 3}] *)
Definition time_only_payload : gmap string value :=
  list_to_map [("time", VInt 3)].

(** The last component of a "/"-separated path. *)
Fixpoint basename_from (s acc : string) : string :=
  match s with
  | EmptyString => acc
  | String c rest =>
      if Ascii.eqb c (Ascii.ascii_of_nat 47) then basename_from rest ""
      else basename_from rest (acc ++ String c "")
  end.

(** Files are a map from path to contents; the cache writes
    [cache_dir/file_name]. *)
Definition memory_host : Host :=
  {| FS := gmap string bytes;
     Path_of_str := mkPath;
     Path_name := fun p => basename_from (path_str p) "";
     st_size := fun fs p => (fun b => Z.of_nat (length b)) <$> fs !! path_str p;
     stat_error := fun fs p => OSError (path_str p);
     save_bytes_to_cache := fun data file_name cache_dir fs =>
       let p := cache_dir ++ "/" ++ file_name in (p, <[p := data]> fs) |}.

Definition one_file : gmap string bytes :=
  {[ "/data/a.rrd" := [Byte.x52; Byte.x52; Byte.x46; Byte.x32] ]}.

Definition two_sources : list source :=
  [SStr "https://app.rerun.io/dna.rrd"; SPath (mkPath "/data/a.rrd")].

Definition viewer : Rerun := mkRerun (VInt 640) false VNone "/tmp/gradio".

(** An SDK that only counts: the state is the number of messages
    logged and not yet read, a chunk holds one zero byte per message,
    and an image is the number of times it was blurred. *)
Definition counting_sdk : app.Sdk :=
  {| app.World := nat;
     app.RecordingStream := string;
     app.BinaryStream := unit;
     app.Image := nat;
     app.RecordingStream_new := fun _ recording_id w => (recording_id, w);
     app.binary_stream := fun _ w => (tt, w);
     app.send_blueprint := fun _ _ w => S w;
     app.set_time_sequence := fun _ _ _ w => w;
     app.log_image := fun _ _ _ w => S w;
     app.read := fun _ w => (repeat Byte.x00 w, 0);
     app.flush := fun _ w => w;
     app.GaussianBlur := S |}.

(** [math.floor]: an integer is its own floor, a finite float is
    rounded down, infinity and NaN are refused, and so is everything
    that is not a number. *)
Definition floor_of (x : value) : result Z :=
  match x with
  | VInt n => Ok n
  | VBool b => Ok (if b then 1 else 0)%Z
  | VFloat (S754_zero _) => Ok 0%Z
  | VFloat (S754_finite s m e) =>
      let n := if s then Z.neg m else Z.pos m in
      Ok (if (0 <=? e)%Z then n * 2 ^ e else Z.shiftr n (- e))%Z
  | VFloat (S754_infinity _) => Raise OverflowError
  | VFloat S754_nan => Raise ValueError
  | _ => Raise TypeError
  end.

Definition counting_builtins : app.Builtins :=
  {| app.math_floor := floor_of;
     app.format_value := fun x => match x with VStr s => s | _ => "?" end;
     app.dict_slice_error := TypeError |}.

Definition counting_points_sdk : @app.PointsSdk counting_sdk :=
  @app.Build_PointsSdk counting_sdk (fun _ _ _ _ (w : nat) => (Ok tt, S w)).

Definition alice : app.Request := app.mkRequest "alice".

(** The event of a click on the entity "image/blurred" at (10, 20, 0). *)
Definition click : events.SelectionChange.t unit :=
  events.SelectionChange.mk (mkEventData tt VNone)
    [events.Entity
       (events.EntitySelection.mk (VStr "image/blurred") VNone VNone
          (VTuple [VInt 10; VInt 20; VInt 0]))].

(** The float 2.5. *)
Definition two_and_a_half : value := VFloat (S754_finite false 5 (-1)).

End Samples.

(** * Properties *)

(** ** The error result *)

Lemma bind_Ok {A B : Type} (m : result A) (k : A -> result B) (b : B) :
  m ≫= k = Ok b -> exists a, m = Ok a /\ k a = Ok b.
Proof. destruct m as [a|e]; simpl; [eauto | discriminate]. Qed.

Lemma bind_Raise {A B : Type} (m : result A) (k : A -> result B) (e : exn) :
  m ≫= k = Raise e -> m = Raise e \/ exists a, m = Ok a /\ k a = Raise e.
Proof. destruct m as [a|e']; simpl; [eauto | intros [= ->]; auto]. Qed.

Lemma eq_str_true (x : value) (s : string) :
  eq_str x s = true <-> x = VStr s.
Proof.
  destruct x; simpl; try (split; [discriminate | intros [=]]).
  rewrite String.eqb_eq. split; [intros -> | intros [=]]; congruence.
Qed.

(** Subscripting a dict with a key that is not a string finds nothing. *)
Lemma getitem_dict_builtin_type (fields : gmap string value) :
  getitem (VDict fields) KBuiltinType = Raise (KeyError KBuiltinType).
Proof. reflexivity. Qed.

(** No value of the embedding can be subscripted with it. *)
Lemma getitem_builtin_type_not_Ok (x v : value) :
  getitem x KBuiltinType <> Ok v.
Proof. destruct x; discriminate. Qed.

Lemma getitem_str_Ok_dict (json : value) (k : string) (v : value) :
  getitem json (KStr k) = Ok v ->
  exists fields, json = VDict fields /\ fields !! k = Some v.
Proof.
  destruct json; simpl; try discriminate.
  destruct (fields !! k) eqn:E; [intros [= ->]; eauto | discriminate].
Qed.

Lemma getitem_dict_lookup (fields : gmap string value) (k : string) (v : value) :
  fields !! k = Some v -> getitem (VDict fields) (KStr k) = Ok v.
Proof. intros E. simpl. by rewrite E. Qed.

(** ** The parser of selection items *)

(** The last branch of the parser subscripts its argument with the
    builtin [type] while it formats the message, so on a dict it ends in
    [KeyError] before [NotImplementedError] is built. *)
Lemma unhandled_kind_KeyError (fields : gmap string value) (ty : value) :
  fields !! "type" = Some ty ->
  eq_str ty "entity" = false ->
  eq_str ty "view" = false ->
  eq_str ty "container" = false ->
  events._selection_item_from_json (VDict fields) = Raise (KeyError KBuiltinType).
Proof.
  intros Hty He Hv Hc. unfold events._selection_item_from_json.
  rewrite (getitem_dict_lookup _ _ _ Hty). simpl.
  by rewrite He, Hv, Hc.
Qed.

Lemma getitem_not_NotImplementedError (x : value) (k : key) (u : value) :
  getitem x k <> Raise (NotImplementedError u).
Proof.
  destruct x, k; simpl; try discriminate;
    unfold seq_index; repeat case_match; discriminate.
Qed.

Lemma get_not_NotImplementedError (x : value) (k : string) (u : value) :
  get x k <> Raise (NotImplementedError u).
Proof. destruct x; discriminate. Qed.

(** One step through a chain of binds that is known to raise. *)
Ltac raise_step H :=
  lazymatch type of H with
  | getitem _ _ = Raise (NotImplementedError _) =>
      exact (getitem_not_NotImplementedError _ _ _ H)
  | get _ _ = Raise (NotImplementedError _) =>
      exact (get_not_NotImplementedError _ _ _ H)
  | (if ?b then _ else _) = Raise _ => destruct b
  | _ ≫= _ = Raise _ =>
      apply bind_Raise in H as [H | (? & ? & H)]; cbv beta in H
  | _ => discriminate H
  end.

(** No input at all makes the parser raise [NotImplementedError]. *)
Lemma never_NotImplementedError (json unhandled : value) :
  events._selection_item_from_json json <> Raise (NotImplementedError unhandled).
Proof.
  unfold events._selection_item_from_json. intros Hraise.
  repeat raise_step Hraise.
  match goal with
  | Hty : getitem json KBuiltinType = Ok _ |- _ =>
      exact (getitem_builtin_type_not_Ok _ _ Hty)
  end.
Qed.

(** C1: on the object [{"type": "mesh"}], whose "type" is none of
    "entity", "view" and "container", both copies of
    [_selection_item_from_json] raise [KeyError] for the key [type] (the
    builtin), not [NotImplementedError]. *)
Theorem unhandled_kind_mesh :
  events._selection_item_from_json Samples.mesh_item
    = Raise (KeyError KBuiltinType)
  /\ rerun._selection_item_from_json Samples.mesh_item
    = Raise (KeyError KBuiltinType).
Proof. split; vm_compute; reflexivity. Qed.

(** C9: the parser of events.py and its copy in rerun.py agree on every
    input: both return items of the same kind with the same field
    values, or both raise the same exception. *)
Theorem selection_item_parsers_agree (json : value) :
  Spec.same_outcome (events._selection_item_from_json json)
                    (rerun._selection_item_from_json json).
Proof.
  unfold events._selection_item_from_json, rerun._selection_item_from_json.
  destruct (getitem json (KStr "type")) as [ty|e]; simpl; [|reflexivity].
  destruct (eq_str ty "entity").
  - destruct (get json "position") as [position|]; simpl; [|reflexivity].
    destruct (getitem json (KStr "entity_path")); simpl; [|reflexivity].
    destruct (get json "instance_id"); simpl; [|reflexivity].
    destruct (get json "view_name"); simpl; [|reflexivity].
    destruct (is_not_None position); simpl; [|split; reflexivity].
    destruct (getitem position (KInt 0)); simpl; [|reflexivity].
    destruct (getitem position (KInt 1)); simpl; [|reflexivity].
    destruct (getitem position (KInt 2)); simpl; [|reflexivity].
    split; reflexivity.
  - destruct (eq_str ty "view").
    + destruct (getitem json (KStr "view_id")); simpl; [|reflexivity].
      destruct (getitem json (KStr "view_name")); simpl; [|reflexivity].
      split; reflexivity.
    + destruct (eq_str ty "container").
      * destruct (getitem json (KStr "container_id")); simpl; [|reflexivity].
        destruct (getitem json (KStr "container_name")); simpl; [|reflexivity].
        split; reflexivity.
      * destruct (getitem json KBuiltinType); reflexivity.
Qed.

(** One step through a chain of binds that is known to return. *)
Ltac return_step H :=
  lazymatch type of H with
  | _ ≫= _ = Ok _ =>
      let E := fresh "E" in
      apply bind_Ok in H as (? & E & H); cbv beta in H
  | (if ?b then _ else _) = Ok _ =>
      let E := fresh "Hif" in destruct b eqn:E
  | mret _ = Ok _ => injection H as <-
  | Ok _ = Ok _ => injection H as <-
  | Raise _ = Ok _ => discriminate H
  end.

(** C10: the three classes have the constant kinds "entity", "view" and
    "container", whatever their fields hold, and the kind of an item
    that [_selection_item_from_json] returns is the "type" field of the
    JSON it was parsed from. *)
Theorem kind_is_type_field :
  (forall e, events.EntitySelection.kind e = "entity")
  /\ (forall v, events.ViewSelection.kind v = "view")
  /\ (forall c, events.ContainerSelection.kind c = "container")
  /\ (forall json item,
        events._selection_item_from_json json = Ok item ->
        getitem json (KStr "type") = Ok (VStr (events.kind item))).
Proof.
  do 3 (split; [reflexivity|]).
  intros json item Hitem. unfold events._selection_item_from_json in Hitem.
  return_step Hitem. rename x into ty.
  return_step Hitem.
  { apply eq_str_true in Hif as ->.
    repeat (return_step Hitem; try discriminate). all: assumption. }
  return_step Hitem. return_step Hitem.
  { apply eq_str_true in Hif0 as ->.
    repeat (return_step Hitem; try discriminate). assumption. }
  return_step Hitem. return_step Hitem.
  { apply eq_str_true in Hif1 as ->.
    repeat (return_step Hitem; try discriminate). assumption. }
  return_step Hitem. discriminate Hitem.
Qed.

Lemma kind_is_type_field_witness :
  events._selection_item_from_json Samples.entity_item
    = Ok (events.Entity
            (events.EntitySelection.mk (VStr "world/points") VNone VNone
               (VTuple [VInt 1; VInt 2; VInt 3])))
  /\ getitem Samples.entity_item (KStr "type") = Ok (VStr "entity").
Proof.
  assert (Hitem : events._selection_item_from_json Samples.entity_item
    = Ok (events.Entity
            (events.EntitySelection.mk (VStr "world/points") VNone VNone
               (VTuple [VInt 1; VInt 2; VInt 3])))) by (vm_compute; reflexivity).
  split; [exact Hitem|].
  exact (proj2 (proj2 (proj2 kind_is_type_field)) _ _ Hitem).
Defined.

(** ** The time events *)

(** C6: [TimeUpdate.__init__] never raises and stores the payload
    itself as [self.time], whatever the payload is. *)
Theorem TimeUpdate_stores_payload {Block : Type} (target : Block) (data : value) :
  events.TimeUpdate.__init__ target data
    = Ok (events.TimeUpdate.mk (mkEventData target data) data).
Proof. reflexivity. Qed.

(** As the claim C5 is worded it fails: the payload [[]] has neither
    key, and the constructor raises [TypeError], which is not a
    key-lookup error. *)
Lemma TimelineChange_list_payload :
  Spec.has_key (VList []) "timeline" = false
  /\ Spec.has_key (VList []) "time" = false
  /\ events.TimelineChange.__init__ tt (VList []) = Raise TypeError
  /\ forall k, events.TimelineChange.__init__ tt (VList []) <> Raise (KeyError k).
Proof. repeat split. discriminate. Qed.

(** C5, amended: on a JSON object with the keys "timeline" and "time",
    [TimelineChange.__init__] sets [self.timeline] and [self.time] to
    the two values; on an object that lacks one of them it raises
    [KeyError] for a key that is missing; on a payload that is not an
    object it raises [TypeError]. *)
Theorem TimelineChange_fields {Block : Type} (target : Block) (data : value) :
  (forall fields timeline time,
      data = VDict fields ->
      fields !! "timeline" = Some timeline ->
      fields !! "time" = Some time ->
      events.TimelineChange.__init__ target data
        = Ok (events.TimelineChange.mk (mkEventData target data)
                timeline time))
  /\ (forall fields,
        data = VDict fields ->
        fields !! "timeline" = None \/ fields !! "time" = None ->
        exists k,
          (k = "timeline" \/ k = "time")
          /\ fields !! k = None
          /\ events.TimelineChange.__init__ target data
               = Raise (KeyError (KStr k)))
  /\ (Spec.is_dict data = false ->
      events.TimelineChange.__init__ target data = Raise TypeError).
Proof.
  unfold events.TimelineChange.__init__. split; [|split].
  - intros fields timeline time -> Htl Htm. simpl. by rewrite Htl, Htm.
  - intros fields -> Hmissing. simpl.
    destruct (fields !! "timeline") as [timeline|] eqn:Htl.
    + destruct Hmissing as [[=]|Htm]. exists "time". by rewrite Htm; auto.
    + exists "timeline". auto.
  - destruct data; try discriminate; reflexivity.
Qed.

Lemma TimelineChange_fields_witness :
  events.TimelineChange.__init__ tt (VDict Samples.timeline_payload)
    = Ok (events.TimelineChange.mk
            (mkEventData tt (VDict Samples.timeline_payload))
            (VStr "iteration") (VInt 3))
  /\ (exists k,
        (k = "timeline" \/ k = "time")
        /\ Samples.time_only_payload !! k = None
        /\ events.TimelineChange.__init__ tt (VDict Samples.time_only_payload)
             = Raise (KeyError (KStr k)))
  /\ events.TimelineChange.__init__ tt (VInt 3) = Raise TypeError.
Proof.
  split; [|split].
  - apply (proj1 (TimelineChange_fields tt (VDict Samples.timeline_payload))
             Samples.timeline_payload); reflexivity.
  - apply (proj1 (proj2 (TimelineChange_fields tt
                           (VDict Samples.time_only_payload)))
             Samples.time_only_payload); [reflexivity|].
    left. reflexivity.
  - apply (proj2 (proj2 (TimelineChange_fields tt (VInt 3)))). reflexivity.
Defined.

(** A payload that is not an object has no keys to look up: the
    subscript raises [TypeError]. *)
Lemma TimelineChange_not_an_object {Block : Type} (target : Block) (data : value) :
  (forall fields, data <> VDict fields) ->
  events.TimelineChange.__init__ target data = Raise TypeError.
Proof.
  intros Hdata. unfold events.TimelineChange.__init__.
  destruct data; try reflexivity. by destruct (Hdata fields).
Qed.

(** ** The selection event *)

Lemma comprehension_Forall2 {A B : Type} (f : A -> result B)
    (xs : list A) (ys : list B) :
  comprehension f xs = Ok ys <-> Forall2 (fun x y => f x = Ok y) xs ys.
Proof.
  revert ys. induction xs as [|x xs IH]; intros ys; simpl.
  - split; [intros [= <-]; constructor | by inversion 1].
  - split.
    + intros Hc. return_step Hc. return_step Hc. return_step Hc.
      constructor; [assumption | by apply IH].
    + inversion 1 as [|? y ? ys' Hx Hrest]; subst.
      rewrite Hx. simpl. apply IH in Hrest. by rewrite Hrest.
Qed.

Lemma comprehension_total {A B : Type} (f : A -> result B) (xs : list A) :
  Forall (fun x => exists y, f x = Ok y) xs ->
  exists ys, comprehension f xs = Ok ys.
Proof.
  induction 1 as [|x xs [y Hy] _ [ys Hys]]; simpl; [eauto|].
  rewrite Hy. simpl. rewrite Hys. simpl. eauto.
Qed.

Lemma is_Ok_true {A : Type} (r : result A) :
  Spec.is_Ok r = true -> exists a, r = Ok a.
Proof. destruct r; [eauto | discriminate]. Qed.

Lemma has_key_true (fields : gmap string value) (k : string) :
  Spec.has_key (VDict fields) k = true -> exists v, fields !! k = Some v.
Proof. simpl. intros Hk. by apply bool_decide_eq_true in Hk as [v Hv]; eauto. Qed.

(** The parser on an entity object whose position can be read. *)
Lemma parse_entity (fields : gmap string value) (entity_path : value) :
  fields !! "type" = Some (VStr "entity") ->
  fields !! "entity_path" = Some entity_path ->
  Spec.position_readable (VDict fields) = true ->
  exists position,
    events._selection_item_from_json (VDict fields)
      = Ok (events.Entity
              (events.EntitySelection.mk entity_path
                 (default VNone (fields !! "instance_id"))
                 (default VNone (fields !! "view_name"))
                 position))
    /\ Spec.entity_position fields position.
Proof.
  intros Hty Hpath Hpos.
  unfold events._selection_item_from_json, Spec.entity_position.
  simpl in *. rewrite Hty in Hpos. simpl in Hpos. rewrite Hty, Hpath. simpl.
  destruct (fields !! "position") as [p|]; simpl; [|eauto].
  destruct p; simpl; [by eauto|..];
    apply andb_prop in Hpos as [Hpos H2];
    apply andb_prop in Hpos as [H0 H1];
    apply is_Ok_true in H0 as [p0 H0];
    apply is_Ok_true in H1 as [p1 H1];
    apply is_Ok_true in H2 as [p2 H2];
    simpl in H0, H1, H2; try discriminate H0;
    rewrite ?H0, ?H1, ?H2; simpl;
    eexists; (split; [reflexivity|]); by exists p0, p1, p2.
Qed.

Lemma well_formed_parses (json : value) :
  Spec.well_formed json = true ->
  Spec.position_readable json = true ->
  exists item, events._selection_item_from_json json = Ok item.
Proof.
  intros Hwf Hpos. destruct json as [| | | | | | |fields]; try discriminate.
  unfold Spec.well_formed in Hwf.
  destruct (fields !! "type") as [[| | | |ty| | |]|] eqn:Hty; try discriminate.
  destruct (String.eqb ty "entity") eqn:He.
  { apply String.eqb_eq in He as ->.
    apply has_key_true in Hwf as [entity_path Hpath].
    destruct (parse_entity fields entity_path Hty Hpath Hpos) as (? & ? & _).
    eauto. }
  unfold events._selection_item_from_json. simpl. rewrite Hty. simpl.
  rewrite He.
  destruct (String.eqb ty "view") eqn:Hv.
  { apply andb_prop in Hwf as [[? H1]%has_key_true [? H2]%has_key_true].
    rewrite H1, H2. simpl. eauto. }
  destruct (String.eqb ty "container") eqn:Hc; [|discriminate].
  apply andb_prop in Hwf as [[? H1]%has_key_true [? H2]%has_key_true].
  rewrite H1, H2. simpl. eauto.
Qed.

(** As the claim C4 is worded it fails: this list holds one well-formed
    entity object whose position has two components, and the
    constructor raises [IndexError] instead of setting [self.items]. *)
Lemma SelectionChange_short_position :
  Forall (fun json => Spec.well_formed json = true)
         [Samples.short_position_item]
  /\ events.SelectionChange.__init__ tt (VList [Samples.short_position_item])
       = Raise IndexError.
Proof. split; [repeat constructor | vm_compute; reflexivity]. Qed.

(** C4, amended: on a list of well-formed selection objects in which
    the position of every entity, when present and not null, has at
    least three components, [SelectionChange.__init__] sets [self.items] to the
    results of [_selection_item_from_json] on the elements, in order and
    of the same length; an entity item takes [instance_id] and
    [view_name] from the object, [None] when absent, and its position is
    [None] when the key is absent or null and else the 3-tuple of the
    first three components. *)
Theorem SelectionChange_items {Block : Type} (target : Block)
    (data : list value) :
  Forall (fun json => Spec.well_formed json = true) data ->
  Forall (fun json => Spec.position_readable json = true) data ->
  exists items,
    events.SelectionChange.__init__ target (VList data)
      = Ok (events.SelectionChange.mk (mkEventData target (VList data)) items)
    /\ length items = length data
    /\ (forall i json, data !! i = Some json ->
          exists item,
            items !! i = Some item
            /\ events._selection_item_from_json json = Ok item)
    /\ (forall i fields,
          data !! i = Some (VDict fields) ->
          fields !! "type" = Some (VStr "entity") ->
          exists e,
            items !! i = Some (events.Entity e)
            /\ fields !! "entity_path"
                 = Some (events.EntitySelection.entity_path e)
            /\ events.EntitySelection.instance_id e
                 = default VNone (fields !! "instance_id")
            /\ events.EntitySelection.view_name e
                 = default VNone (fields !! "view_name")
            /\ Spec.entity_position fields (events.EntitySelection.position e)).
Proof.
  intros Hwf Hpos.
  assert (Hparse : Forall
            (fun json => exists item,
               events._selection_item_from_json json = Ok item) data).
  { apply Forall_forall. intros json Hin.
    apply well_formed_parses; [eapply Forall_forall in Hwf
                              | eapply Forall_forall in Hpos]; eauto. }
  destruct (comprehension_total _ _ Hparse) as [items Hitems].
  exists items. unfold events.SelectionChange.__init__. simpl.
  rewrite Hitems. simpl.
  apply comprehension_Forall2 in Hitems.
  split; [reflexivity|].
  split; [symmetry; eapply Forall2_length; eassumption|].
  split.
  - intros i json Hi.
    destruct (Forall2_lookup_l _ _ _ _ _ Hitems Hi) as (item & ? & ?). eauto.
  - intros i fields Hi Hty.
    destruct (Forall2_lookup_l _ _ _ _ _ Hitems Hi) as (item & Hitem & Hjson).
    assert (Hwfi : Spec.well_formed (VDict fields) = true)
      by (eapply (Forall_lookup_1 _ _ _ _ Hwf); eassumption).
    assert (Hposi : Spec.position_readable (VDict fields) = true)
      by (eapply (Forall_lookup_1 _ _ _ _ Hpos); eassumption).
    unfold Spec.well_formed in Hwfi. rewrite Hty in Hwfi. simpl in Hwfi.
    apply bool_decide_eq_true in Hwfi as [entity_path Hpath].
    destruct (parse_entity fields entity_path Hty Hpath Hposi)
      as (position & Hentity & Hposition).
    rewrite Hentity in Hjson. injection Hjson as <-.
    eexists. split; [exact Hitem|]. simpl. auto.
Qed.

Lemma SelectionChange_items_witness :
  exists items,
    events.SelectionChange.__init__ tt
        (VList [Samples.view_item; Samples.entity_item; Samples.container_item])
      = Ok (events.SelectionChange.mk
              (mkEventData tt
                 (VList [Samples.view_item; Samples.entity_item;
                         Samples.container_item]))
              items)
    /\ length items = 3.
Proof.
  destruct (SelectionChange_items tt
              [Samples.view_item; Samples.entity_item; Samples.container_item])
    as (items & Hinit & Hlen & _).
  - repeat constructor.
  - repeat constructor.
  - exists items. split; [exact Hinit | exact Hlen].
Defined.

(** ** The component: postprocess *)

Section Postprocess.
Context `{rerun.Host}.
Import rerun.

Lemma is_url_true (x : source) : is_url x = true <-> Spec.url_string x.
Proof.
  unfold Spec.url_string. destruct x as [p|s]; simpl.
  - split; [discriminate | by intros (? & [=] & _)].
  - rewrite orb_true_iff. split; [eauto | by intros (? & [= <-] & ?)].
Qed.

Lemma root_entry_url (fs : FS) (x : source) :
  is_url x = true -> root_entry fs x = Ok (EKeep x).
Proof. intros Hurl. unfold root_entry. by rewrite Hurl. Qed.

Lemma root_entry_file (fs : FS) (x : source) (n : Z) :
  is_url x = false ->
  st_size fs (Path_ x) = Some n ->
  root_entry fs x
    = Ok (EFile (mkFileData (str x) (Some (Path_name (Path_ x))) (Some n))).
Proof. intros Hurl Hsize. unfold root_entry. by rewrite Hurl, Hsize. Qed.

(** A file that cannot be examined ends the call with what [stat]
    raises for it. *)
Lemma root_entry_missing (fs : FS) (x : source) :
  is_url x = false ->
  st_size fs (Path_ x) = None ->
  root_entry fs x = Raise (stat_error fs (Path_ x)).
Proof. intros Hurl Hsize. unfold root_entry. by rewrite Hurl, Hsize. Qed.

Lemma postprocess_elements (self : Rerun) (value : arg) (xs : list source)
    (fs : FS) :
  Spec.elements value = Some xs ->
  postprocess self value fs
    = (comprehension (root_entry fs) xs
         ≫= (fun root => mret (OData (mkRerunData root))), fs).
Proof. destruct value; intros [= <-]; reflexivity. Qed.

(** C2: for a Path, a string, or a list of them, in which every element
    that is not a URL string names a file the file system can examine,
    [postprocess] returns a [RerunData] with one root entry per element,
    in order: a string that starts with "http://" or "https://" is kept
    as it is, every other element becomes a [FileData] with path
    [str(file)], orig_name [Path(file).name] and the size of the file.
    The file system is left as it was. *)
Theorem postprocess_sources (self : Rerun) (value : arg) (xs : list source)
    (fs : FS) :
  Spec.elements value = Some xs ->
  (forall x, x ∈ xs -> ~ Spec.url_string x ->
             exists n, st_size fs (Path_ x) = Some n) ->
  exists root,
    postprocess self value fs = (Ok (OData (mkRerunData root)), fs)
    /\ length root = length xs
    /\ forall i x, xs !! i = Some x ->
         (Spec.url_string x -> root !! i = Some (EKeep x))
         /\ (~ Spec.url_string x ->
             exists n,
               st_size fs (Path_ x) = Some n
               /\ root !! i
                    = Some (EFile (mkFileData (str x)
                                     (Some (Path_name (Path_ x)))
                                     (Some n)))).
Proof.
  intros Helems Hexist.
  assert (Hall : Forall (fun x => exists e, root_entry fs x = Ok e) xs).
  { apply Forall_forall. intros x Hx.
    destruct (is_url x) eqn:Hurl.
    - rewrite (root_entry_url _ _ Hurl). eauto.
    - destruct (Hexist x Hx) as [n Hn].
      { rewrite <- is_url_true. congruence. }
      rewrite (root_entry_file _ _ _ Hurl Hn). eauto. }
  destruct (comprehension_total _ _ Hall) as [root Hroot].
  exists root. rewrite (postprocess_elements _ _ _ _ Helems), Hroot.
  split; [reflexivity|].
  apply comprehension_Forall2 in Hroot.
  split; [symmetry; eapply Forall2_length; eassumption|].
  intros i x Hi.
  destruct (Forall2_lookup_l _ _ _ _ _ Hroot Hi) as (e & He & Hentry).
  split.
  - intros Hurl%is_url_true.
    rewrite (root_entry_url _ _ Hurl) in Hentry. congruence.
  - intros Hnot.
    assert (Hurl : is_url x = false).
    { destruct (is_url x) eqn:E; [|reflexivity].
      by apply is_url_true in E. }
    destruct (Hexist x) as [n Hn];
      [by eapply list_elem_of_lookup_2 | assumption |].
    exists n. split; [assumption|].
    rewrite (root_entry_file _ _ _ Hurl Hn) in Hentry. congruence.
Qed.

(** C3: a component constructed with [streaming=True] returns bytes
    unchanged and touches nothing; one constructed with
    [streaming=False] saves them in its cache directory under the name
    "rrd" and returns a [RerunData] whose single entry is a [FileData]
    with the path of the saved file.  [check_streamable] reports the
    flag. *)
Theorem postprocess_bytes (height panel_states : value) (cache : string)
    (b : bytes) (fs : FS) :
  postprocess (__init__ height true panel_states cache) (ABytes b) fs
    = (Ok (OBytes b), fs)
  /\ postprocess (__init__ height false panel_states cache) (ABytes b) fs
    = (Ok (OData (mkRerunData
         [EFile (mkFileData (save_bytes_to_cache b "rrd" cache fs).1
                   None None)])),
       (save_bytes_to_cache b "rrd" cache fs).2)
  /\ (forall streaming,
        check_streamable (__init__ height streaming panel_states cache)
          = streaming).
Proof.
  split; [reflexivity|]. split; [|reflexivity].
  simpl. by destruct (save_bytes_to_cache b "rrd" cache fs).
Qed.

(** C8: [postprocess(None)] returns [RerunData(root=[])], a data model
    with no sources, and never [None]. *)
Theorem postprocess_None (self : Rerun) (fs : FS) :
  postprocess self ANone fs = (Ok (OData (mkRerunData [])), fs).
Proof. reflexivity. Qed.

End Postprocess.

Lemma postprocess_sources_witness :
  exists root,
    @rerun.postprocess Samples.memory_host Samples.viewer
        (rerun.AList Samples.two_sources) Samples.one_file
      = (Ok (rerun.OData (rerun.mkRerunData root)), Samples.one_file)
    /\ length root = 2.
Proof.
  destruct (@postprocess_sources Samples.memory_host Samples.viewer
              (rerun.AList Samples.two_sources) Samples.two_sources
              Samples.one_file) as (root & Hpost & Hlen & _).
  - reflexivity.
  - intros x Hx Hnot.
    apply list_elem_of_In in Hx. simpl in Hx.
    destruct Hx as [<- | [<- | []]].
    + destruct Hnot. eexists. split; [reflexivity|]. right. reflexivity.
    + exists 4%Z. reflexivity.
  - exists root. split; [exact Hpost | exact Hlen].
Defined.

(** ** The demo: the streaming callback *)

Section Streaming.
Context `{app.Sdk}.
Import app.

(** A loop whose body returns and yields once per turn returns, having
    yielded once per element. *)
Lemma for_in_yields {A S : Type} (xs : list A) (body : A -> S -> gen S) :
  (forall x acc s, x ∈ xs -> exists acc' s',
      body x acc s = (Ok acc', s')
      /\ length (yielded s') = length (yielded s) + 1) ->
  forall acc s, exists acc' s',
    for_in xs body acc s = (Ok acc', s')
    /\ length (yielded s') = length (yielded s) + length xs.
Proof.
  induction xs as [|x xs IH]; intros Hbody acc s; simpl.
  - exists acc, s. split; [reflexivity | lia].
  - destruct (Hbody x acc s) as (acc1 & s1 & Hx & Hlen1); [by left|].
    destruct (IH (fun y a t Hy => Hbody y a t (list_elem_of_further _ _ _ Hy))
                 acc1 s1) as (acc2 & s2 & Hrest & Hlen2).
    exists acc2, s2. unfold mbind, gen_bind. rewrite Hx, Hrest.
    split; [reflexivity | lia].
Qed.

(** [set_time] on a sequence number that fits in 64 bits. *)
Lemma set_time_run (rec : RecordingStream) (timeline : string) (sequence : Z)
    (s : gstate) :
  int64 sequence = true ->
  set_time rec timeline sequence s
    = (Ok tt, mkGstate (set_time_sequence rec timeline sequence (world s))
                (yielded s)).
Proof. intros Hfits. unfold set_time. by rewrite Hfits. Qed.


(** The loop counters of the demo fit in 64 bits. *)
Lemma range_int64 (n : nat) (i : Z) :
  (Z.of_nat n <= 2 ^ 63)%Z -> i ∈ range n -> int64 i = true.
Proof.
  intros Hn Hi. unfold range in Hi.
  apply list_elem_of_fmap in Hi as (m & -> & Hm).
  apply elem_of_seq in Hm. unfold int64.
  apply andb_true_intro. rewrite Z.leb_le, Z.ltb_lt.
  assert (0 < 2 ^ 63)%Z by reflexivity. lia.
Qed.

Lemma call_run {A : Type} (f : World -> A * World) (s : gstate) :
  call f s = (Ok (f (world s)).1, mkGstate (f (world s)).2 (yielded s)).
Proof. unfold call. by destruct (f (world s)). Qed.

Lemma bind_run {A B : Type} (m : gen A) (k : A -> gen B) (s s' : gstate) (a : A) :
  m s = (Ok a, s') -> (m ≫= k) s = k a s'.
Proof. intros Hm. unfold mbind, gen_bind. by rewrite Hm. Qed.

Lemma length_range (n : nat) : length (range n) = n.
Proof. unfold range. by rewrite length_fmap, length_seq. Qed.

(** One statement of a generator body that calls into the SDK or
    yields. *)
Ltac gen_step :=
  lazymatch goal with
  | |- context [(call ?f ≫= ?k) ?s] =>
      rewrite (bind_run (call f) k s _ _ (call_run f s))
  | |- context [(exec ?f ≫= ?k) ?s] =>
      rewrite (bind_run (exec f) k s _ _ eq_refl)
  | |- context [(yield ?c ≫= ?k) ?s] =>
      rewrite (bind_run (yield c) k s _ _ eq_refl)
  | |- context [(sleep ≫= ?k) ?s] =>
      rewrite (bind_run sleep k s _ _ eq_refl)
  | |- context [(set_time ?rec ?timeline ?i ≫= ?k) ?s] =>
      rewrite (bind_run (set_time rec timeline i) k s _ _
                 (set_time_run rec timeline i s
                    ltac:(first [reflexivity | eassumption])))
  end; cbn [world yielded].

(** C7: with no image the generator raises the user error
    "Must provide an image to blur." before it yields anything; with an
    image it raises nothing: it yields its 102 chunks and returns. *)
Theorem streaming_repeated_blur_needs_image (recording_id : string) (w : World) :
  (exists s,
      run (streaming_repeated_blur recording_id None) w
        = (Raise (GradioError "Must provide an image to blur."), s)
      /\ yielded s = [])
  /\ (forall img, exists s,
        run (streaming_repeated_blur recording_id (Some img)) w
          = (Ok tt, s)
        /\ length (yielded s) = 102).
Proof.
  unfold run, streaming_repeated_blur. split.
  - do 2 gen_step. eexists. split; reflexivity.
  - intros img. do 7 gen_step.
    match goal with
    | |- context [(for_in ?xs ?body ?acc0 ≫= ?k) ?s0] =>
        assert (Hbody : forall x acc s, x ∈ xs -> exists acc' s',
                   body x acc s = (Ok acc', s')
                   /\ length (yielded s') = length (yielded s) + 1);
        [| destruct (for_in_yields xs body Hbody acc0 s0)
             as (blur & s1 & Hloop & Hlen);
           rewrite (bind_run _ k s0 _ _ Hloop)]
    end.
    { intros i acc s Hi%(range_int64 100); [|discriminate]. do 5 gen_step.
      eexists _, _. split; [reflexivity|].
      cbn [yielded]. by rewrite length_app. }
    do 2 gen_step. eexists. split; [reflexivity|].
    cbn [yielded] in *. rewrite length_app, Hlen, length_app, length_range.
    reflexivity.
Qed.

End Streaming.

(** The generator on the counting SDK: the first chunk holds the
    blueprint and the original image. *)
Example streaming_repeated_blur_counting :
  (@app.run Samples.counting_sdk _
     (@app.streaming_repeated_blur Samples.counting_sdk "r" None) 0).1
    = Raise (GradioError "Must provide an image to blur.")
  /\ head (app.yielded
       (@app.run Samples.counting_sdk _
          (@app.streaming_repeated_blur Samples.counting_sdk "r" (Some 0)) 0).2)
     = Some [Byte.x00; Byte.x00].
Proof. split; vm_compute; reflexivity. Qed.

(** * Further properties of the parsers *)


(** * Further properties of the parsers *)

(** X1: [_selection_item_from_json] returns an item exactly on the
    well-formed objects whose position, for an entity, is absent, null
    or has three components; on every other value it raises.  The
    position of a view or a container is never looked at. *)
Theorem parser_domain (json : value) :
  Spec.is_Ok (events._selection_item_from_json json)
    = Spec.well_formed json && Spec.position_readable json.
Proof.
  destruct json as [| | | | | | |fields]; try reflexivity.
  unfold events._selection_item_from_json, Spec.well_formed,
    Spec.position_readable, Spec.three_components, Spec.has_key.
  simpl.
  destruct (fields !! "type") as [[| | | |ty| | |]|]; simpl; try reflexivity.
  destruct (String.eqb ty "entity"); simpl.
  - destruct (fields !! "entity_path"); simpl; [|reflexivity].
    destruct (fields !! "position") as [p|]; simpl; [|reflexivity].
    destruct p; simpl; try reflexivity;
      repeat match goal with
             | |- context [seq_index ?l ?i] =>
                 destruct (seq_index l i); simpl
             end; reflexivity.
  - destruct (String.eqb ty "view"); simpl.
    + destruct (fields !! "view_id"); simpl; [|reflexivity].
      destruct (fields !! "view_name"); simpl; reflexivity.
    + destruct (String.eqb ty "container"); simpl; [|reflexivity].
      destruct (fields !! "container_id"); simpl; [|reflexivity].
      destruct (fields !! "container_name"); simpl; reflexivity.
Qed.

(** X2: a value that is not an object makes the parser raise
    [TypeError], and an object without "type" makes it raise [KeyError]
    for "type". *)
Theorem parser_no_type (json : value) :
  (Spec.is_dict json = false ->
   events._selection_item_from_json json = Raise TypeError)
  /\ (forall fields, json = VDict fields -> fields !! "type" = None ->
      events._selection_item_from_json json = Raise (KeyError (KStr "type"))).
Proof.
  split.
  - destruct json; try discriminate; reflexivity.
  - intros fields -> Hty. unfold events._selection_item_from_json. simpl.
    by rewrite Hty.
Qed.

Lemma parser_no_type_witness :
  events._selection_item_from_json (VList [VStr "type"]) = Raise TypeError
  /\ events._selection_item_from_json (VDict ∅) = Raise (KeyError (KStr "type")).
Proof.
  split.
  - apply (proj1 (parser_no_type (VList [VStr "type"]))). reflexivity.
  - apply (proj2 (parser_no_type (VDict ∅)) ∅); reflexivity.
Defined.

(** X3: an object of a known type that lacks a required field makes
    the parser raise [KeyError] for the first such field, in the order
    the fields are read; for an entity this comes before its position
    is examined. *)
Theorem parser_missing_field (fields : gmap string value) :
  (fields !! "type" = Some (VStr "entity") ->
   fields !! "entity_path" = None ->
   events._selection_item_from_json (VDict fields)
     = Raise (KeyError (KStr "entity_path")))
  /\ (fields !! "type" = Some (VStr "view") ->
      (fields !! "view_id" = None ->
       events._selection_item_from_json (VDict fields)
         = Raise (KeyError (KStr "view_id")))
      /\ (is_Some (fields !! "view_id") -> fields !! "view_name" = None ->
          events._selection_item_from_json (VDict fields)
            = Raise (KeyError (KStr "view_name"))))
  /\ (fields !! "type" = Some (VStr "container") ->
      (fields !! "container_id" = None ->
       events._selection_item_from_json (VDict fields)
         = Raise (KeyError (KStr "container_id")))
      /\ (is_Some (fields !! "container_id") ->
          fields !! "container_name" = None ->
          events._selection_item_from_json (VDict fields)
            = Raise (KeyError (KStr "container_name")))).
Proof.
  unfold events._selection_item_from_json. simpl.
  split; [|split].
  - intros -> ->. reflexivity.
  - intros ->. simpl. split.
    + intros ->. reflexivity.
    + intros [? ->] ->. reflexivity.
  - intros ->. simpl. split.
    + intros ->. reflexivity.
    + intros [? ->] ->. reflexivity.
Qed.

Lemma parser_missing_field_witness :
  events._selection_item_from_json
      (Samples.dict [("type", VStr "entity"); ("position", VList [VInt 1])])
    = Raise (KeyError (KStr "entity_path")).
Proof.
  apply (proj1 (parser_missing_field
    (list_to_map [("type", VStr "entity"); ("position", VList [VInt 1])])));
    reflexivity.
Defined.

Lemma seq_index_error {A : Type} (xs : list A) (i : Z) (e : exn) :
  seq_index xs i = Raise e -> e = IndexError.
Proof. unfold seq_index. repeat case_match; congruence. Qed.

Lemma getitem_lookup_error (x : value) (k : key) (e : exn) :
  getitem x k = Raise e -> Spec.lookup_error e.
Proof.
  unfold Spec.lookup_error.
  destruct x, k; simpl; try (intros [= <-]; eauto; fail);
    try (intros ->%seq_index_error; eauto; fail).
  destruct (fields !! s); intros [= <-]; eauto.
Qed.

Lemma get_dict (fields : gmap string value) (k : string) :
  get (VDict fields) k = Ok (default VNone (fields !! k)).
Proof. reflexivity. Qed.

(** X4: whatever it is given, the parser raises only what a subscript
    raises: [TypeError], [IndexError] or [KeyError]; never
    [AttributeError] from [.get], and never [NotImplementedError]. *)
Theorem parser_raises_lookup_errors (json : value) (e : exn) :
  events._selection_item_from_json json = Raise e -> Spec.lookup_error e.
Proof.
  destruct json as [| | | | | | |fields];
    try (intros [= <-]; left; reflexivity).
  unfold events._selection_item_from_json. rewrite !get_dict. intros Hraise.
  repeat lazymatch type of Hraise with
         | getitem _ _ = Raise _ => fail
         | (if ?b then _ else _) = Raise _ => destruct b
         | _ ≫= _ = Raise _ =>
             apply bind_Raise in Hraise as [Hraise | (? & ? & Hraise)];
             cbv beta in Hraise
         | Ok _ ≫= _ = _ => simpl in Hraise
         | _ => discriminate Hraise
         end;
    try (eapply getitem_lookup_error; eassumption).
  exfalso. eapply getitem_builtin_type_not_Ok. eassumption.
Qed.

Lemma parser_raises_lookup_errors_witness :
  events._selection_item_from_json Samples.short_position_item
    = Raise IndexError
  /\ Spec.lookup_error IndexError.
Proof.
  assert (Hraise : events._selection_item_from_json Samples.short_position_item
                     = Raise IndexError) by (vm_compute; reflexivity).
  split; [exact Hraise|].
  exact (parser_raises_lookup_errors _ _ Hraise).
Defined.


(** X5: a key the parser does not look up changes nothing: adding or
    overwriting it leaves the result, item or exception, as it was. *)
Theorem parser_ignores_other_keys (fields : gmap string value)
    (k : string) (v : value) :
  k ∉ Spec.parser_keys ->
  events._selection_item_from_json (VDict (<[k := v]> fields))
    = events._selection_item_from_json (VDict fields).
Proof.
  intros Hk. unfold events._selection_item_from_json. simpl.
  rewrite !lookup_insert_ne
    by (intros ->; apply Hk; unfold Spec.parser_keys; set_solver).
  reflexivity.
Qed.

Lemma parser_ignores_other_keys_witness :
  events._selection_item_from_json
      (VDict (<["space_view" := VStr "x"]>
                (list_to_map [("type", VStr "view"); ("view_id", VStr "v1");
                              ("view_name", VStr "3D")])))
    = events._selection_item_from_json
        (VDict (list_to_map [("type", VStr "view"); ("view_id", VStr "v1");
                             ("view_name", VStr "3D")])).
Proof.
  apply parser_ignores_other_keys.
  unfold Spec.parser_keys. intros Hin.
  repeat (apply elem_of_cons in Hin as [Hin|Hin]; [discriminate Hin|]).
  by apply elem_of_nil in Hin.
Defined.

(** X6: for an entity whose position is a list, the item carries the
    tuple of the first three elements and drops the others; a list of
    fewer than three elements makes the parser raise [IndexError]. *)
Theorem entity_position_list (fields : gmap string value)
    (entity_path : value) (xs : list value) :
  fields !! "type" = Some (VStr "entity") ->
  fields !! "entity_path" = Some entity_path ->
  fields !! "position" = Some (VList xs) ->
  events._selection_item_from_json (VDict fields)
    = match xs with
      | p0 :: p1 :: p2 :: _ =>
          Ok (events.Entity
                (events.EntitySelection.mk entity_path
                   (default VNone (fields !! "instance_id"))
                   (default VNone (fields !! "view_name"))
                   (VTuple [p0; p1; p2])))
      | _ => Raise IndexError
      end.
Proof.
  intros Hty Hpath Hpos. unfold events._selection_item_from_json. simpl.
  rewrite Hty, Hpath, Hpos. simpl.
  destruct xs as [|p0 [|p1 [|p2 rest]]]; reflexivity.
Qed.

Lemma entity_position_list_witness :
  events._selection_item_from_json Samples.entity_item
    = Ok (events.Entity
            (events.EntitySelection.mk (VStr "world/points") VNone VNone
               (VTuple [VInt 1; VInt 2; VInt 3]))).
Proof.
  exact (entity_position_list
           (list_to_map
              [("type", VStr "entity"); ("entity_path", VStr "world/points");
               ("position", VList [VInt 1; VInt 2; VInt 3; VInt 4])])
           (VStr "world/points") [VInt 1; VInt 2; VInt 3; VInt 4]
           eq_refl eq_refl eq_refl).
Defined.

(** X7: for an entity whose position is a number or a boolean the
    parser raises [TypeError]; when it is an object, [KeyError] for the
    key 0. *)
Theorem entity_position_not_a_sequence (fields : gmap string value)
    (entity_path position : value) :
  fields !! "type" = Some (VStr "entity") ->
  fields !! "entity_path" = Some entity_path ->
  fields !! "position" = Some position ->
  match position with
  | VBool _ | VInt _ | VFloat _ =>
      events._selection_item_from_json (VDict fields) = Raise TypeError
  | VDict _ =>
      events._selection_item_from_json (VDict fields)
        = Raise (KeyError (KInt 0))
  | _ => True
  end.
Proof.
  intros Hty Hpath Hpos. destruct position; try exact I;
    unfold events._selection_item_from_json; simpl;
    rewrite Hty, Hpath, Hpos; reflexivity.
Qed.

Lemma entity_position_not_a_sequence_witness :
  events._selection_item_from_json
      (VDict (list_to_map
                [("type", VStr "entity"); ("entity_path", VStr "world");
                 ("position", VDict (list_to_map [("x", VInt 1)]))]))
    = Raise (KeyError (KInt 0)).
Proof.
  apply (entity_position_not_a_sequence
           (list_to_map
              [("type", VStr "entity"); ("entity_path", VStr "world");
               ("position", VDict (list_to_map [("x", VInt 1)]))])
           (VStr "world") (VDict (list_to_map [("x", VInt 1)])));
    reflexivity.
Defined.

(** * Further properties of the selection event *)

Lemma comprehension_app {A B : Type} (f : A -> result B) (xs ys : list A) :
  comprehension f (xs ++ ys)
    = (l1 ← comprehension f xs; l2 ← comprehension f ys; mret (l1 ++ l2)%list).
Proof.
  induction xs as [|x xs IH]; simpl.
  - by destruct (comprehension f ys).
  - destruct (f x); simpl; [|reflexivity]. rewrite IH.
    destruct (comprehension f xs); simpl; [|reflexivity].
    by destruct (comprehension f ys).
Qed.

Lemma comprehension_first_raise {A B : Type} (f : A -> result B)
    (pre post : list A) (x : A) (e : exn) :
  Forall (fun y => Spec.is_Ok (f y) = true) pre ->
  f x = Raise e ->
  comprehension f (pre ++ x :: post) = Raise e.
Proof.
  intros Hpre Hx. induction Hpre as [|y pre Hy _ IH]; simpl.
  - by rewrite Hx.
  - apply is_Ok_true in Hy as [b ->]. simpl. by rewrite IH.
Qed.

(** X8: when [SelectionChange.__init__] returns on a list, the event
    stores the target and the payload, and [self.items] holds, in order
    and one for one, what the parser returns on the elements. *)
Theorem SelectionChange_Ok_items {Block : Type} (target : Block)
    (data : list value) (evt : events.SelectionChange.t Block) :
  events.SelectionChange.__init__ target (VList data) = Ok evt ->
  events.SelectionChange.base evt = mkEventData target (VList data)
  /\ Forall2 (fun json item => events._selection_item_from_json json = Ok item)
       data (events.SelectionChange.items evt).
Proof.
  unfold events.SelectionChange.__init__. simpl. intros Hinit.
  destruct (comprehension events._selection_item_from_json data)
    as [items|] eqn:Hitems; [|discriminate].
  injection Hinit as <-. simpl. split; [reflexivity|].
  by apply comprehension_Forall2.
Qed.

Lemma SelectionChange_Ok_items_witness :
  Forall2 (fun json item => events._selection_item_from_json json = Ok item)
    [Samples.view_item]
    [events.View (events.ViewSelection.mk (VStr "v1") (VStr "3D"))].
Proof.
  apply (SelectionChange_Ok_items tt [Samples.view_item]
           (events.SelectionChange.mk
              (mkEventData tt (VList [Samples.view_item]))
              [events.View (events.ViewSelection.mk (VStr "v1") (VStr "3D"))])).
  vm_compute. reflexivity.
Defined.

(** X9: the constructor stops at the first element the parser rejects
    and raises that element's exception, whatever follows it in the
    list. *)
Theorem SelectionChange_first_raise {Block : Type} (target : Block)
    (pre post : list value) (json : value) (e : exn) :
  Forall (fun j => Spec.is_Ok (events._selection_item_from_json j) = true) pre ->
  events._selection_item_from_json json = Raise e ->
  events.SelectionChange.__init__ target (VList (pre ++ json :: post))
    = Raise e.
Proof.
  intros Hpre Hjson. unfold events.SelectionChange.__init__. simpl.
  by rewrite (comprehension_first_raise _ _ _ _ _ Hpre Hjson).
Qed.

Lemma SelectionChange_first_raise_witness :
  events.SelectionChange.__init__ tt
      (VList ([Samples.view_item] ++ Samples.mesh_item :: [VInt 0]))
    = Raise (KeyError KBuiltinType).
Proof.
  apply SelectionChange_first_raise.
  - repeat constructor.
  - vm_compute. reflexivity.
Defined.

(** A string that is not empty has a first character. *)
Lemma chars_nonempty (c : Ascii.ascii) (s : string) :
  exists first rest, chars (String c s) = VStr first :: rest.
Proof.
  unfold chars, code_points. simpl.
  destruct (code_points_from s) as [pending points].
  destruct (is_continuation c); simpl; eauto.
Qed.

(** X10: a payload that is not a list: None, a boolean and a number
    cannot be iterated and raise [TypeError]; an empty sequence, string
    or object gives an event without items; a string or an object that
    is not empty raises [TypeError], its characters and keys being
    strings. *)
Theorem SelectionChange_not_a_list {Block : Type} (target : Block) (data : value) :
  match data with
  | VNone | VBool _ | VInt _ | VFloat _ =>
      events.SelectionChange.__init__ target data = Raise TypeError
  | VList [] | VTuple [] | VStr "" =>
      events.SelectionChange.__init__ target data
        = Ok (events.SelectionChange.mk (mkEventData target data) [])
  | VStr _ => events.SelectionChange.__init__ target data = Raise TypeError
  | VDict fields =>
      events.SelectionChange.__init__ target data
        = if bool_decide (fields = ∅)
          then Ok (events.SelectionChange.mk (mkEventData target data) [])
          else Raise TypeError
  | _ => True
  end.
Proof.
  destruct data as [| | | |s|xs|xs|fields]; try reflexivity.
  - destruct s as [|c s]; [reflexivity|].
    unfold events.SelectionChange.__init__. simpl.
    by destruct (chars_nonempty c s) as (first & rest & ->).
  - by destruct xs.
  - by destruct xs.
  - unfold events.SelectionChange.__init__. simpl.
    case_bool_decide as Hempty.
    + subst. by rewrite map_to_list_empty.
    + destruct (map_to_list fields) as [|[k v] rest] eqn:Hlist.
      * by apply map_to_list_empty_iff in Hlist.
      * reflexivity.
Qed.

(** On one value the two copies of the parser end the same way. *)
Lemma parsers_agree_pointwise (json : value) :
  match events._selection_item_from_json json,
        rerun._selection_item_from_json json with
  | Ok a, Ok b => Spec.same_item a b
  | Raise e1, Raise e2 => e1 = e2
  | _, _ => False
  end.
Proof.
  unfold events._selection_item_from_json, rerun._selection_item_from_json.
  destruct (getitem json (KStr "type")) as [ty|e]; simpl; [|reflexivity].
  destruct (eq_str ty "entity"); [|destruct (eq_str ty "view");
                                   [|destruct (eq_str ty "container")]].
  - destruct (get json "position") as [position|]; simpl; [|reflexivity].
    destruct (getitem json (KStr "entity_path")); simpl; [|reflexivity].
    destruct (get json "instance_id"); simpl; [|reflexivity].
    destruct (get json "view_name"); simpl; [|reflexivity].
    destruct (is_not_None position); simpl; [|split; reflexivity].
    do 3 (match goal with
          | |- context [getitem position ?k] =>
              destruct (getitem position k); simpl; [|reflexivity]
          end).
    split; reflexivity.
  - do 2 (match goal with
          | |- context [getitem json ?k] =>
              destruct (getitem json k); simpl; [|reflexivity]
          end).
    split; reflexivity.
  - do 2 (match goal with
          | |- context [getitem json ?k] =>
              destruct (getitem json k); simpl; [|reflexivity]
          end).
    split; reflexivity.
  - destruct (getitem json KBuiltinType); reflexivity.
Qed.

Lemma comprehensions_agree (xs : list value) :
  match comprehension events._selection_item_from_json xs,
        comprehension rerun._selection_item_from_json xs with
  | Ok a, Ok b => Forall2 Spec.same_item a b
  | Raise e1, Raise e2 => e1 = e2
  | _, _ => False
  end.
Proof.
  induction xs as [|x xs IH]; simpl; [constructor|].
  pose proof (parsers_agree_pointwise x) as Hx.
  destruct (events._selection_item_from_json x),
           (rerun._selection_item_from_json x); simpl; try done.
  destruct (comprehension events._selection_item_from_json xs),
           (comprehension rerun._selection_item_from_json xs); simpl; try done.
  by constructor.
Qed.

(** X11: [SelectionChange] of events.py and [SelectionItems] of
    rerun.py build the same event from every payload: the same stored
    arguments and items of the same kinds and fields, or the same
    exception. *)
Theorem selection_events_agree {Block : Type} (target : Block) (data : value) :
  Spec.same_event (events.SelectionChange.__init__ target data)
                  (rerun.SelectionItems.__init__ target data).
Proof.
  unfold events.SelectionChange.__init__, rerun.SelectionItems.__init__,
    Spec.same_event.
  destruct (iter data) as [xs|e]; simpl; [|reflexivity].
  pose proof (comprehensions_agree xs) as Hxs.
  destruct (comprehension events._selection_item_from_json xs),
           (comprehension rerun._selection_item_from_json xs); simpl; try done.
Qed.

(** * Further properties of the time events and their callbacks *)

(** X12: [TimelineChange.__init__] reads "timeline" first: an object
    without it raises [KeyError] for "timeline" whether or not "time" is
    there, and [KeyError] for "time" is raised only when "timeline" is
    present. *)
Theorem TimelineChange_first_missing_key {Block : Type} (target : Block)
    (fields : gmap string value) :
  (fields !! "timeline" = None ->
   events.TimelineChange.__init__ target (VDict fields)
     = Raise (KeyError (KStr "timeline")))
  /\ (is_Some (fields !! "timeline") -> fields !! "time" = None ->
      events.TimelineChange.__init__ target (VDict fields)
        = Raise (KeyError (KStr "time"))).
Proof.
  unfold events.TimelineChange.__init__. simpl. split.
  - intros ->. reflexivity.
  - intros [timeline ->] ->. reflexivity.
Qed.

Lemma TimelineChange_first_missing_key_witness :
  events.TimelineChange.__init__ tt (VDict ∅)
    = Raise (KeyError (KStr "timeline"))
  /\ events.TimelineChange.__init__ tt (VDict {["timeline" := VStr "log_time"]})
    = Raise (KeyError (KStr "time")).
Proof.
  split.
  - apply (proj1 (TimelineChange_first_missing_key tt ∅)). reflexivity.
  - apply (proj2 (TimelineChange_first_missing_key tt
                    {["timeline" := VStr "log_time"]}));
      [eexists|]; reflexivity.
Defined.

(** X13: what the demo stores from the time events is what the viewer
    sent: [track_current_time] on a [TimeUpdate] gives back the payload,
    and [track_current_timeline_and_time] on a [TimelineChange] gives
    back the payload's "timeline" and "time". *)
Theorem tracked_time_is_payload {Block : Type} (target : Block) (data : value) :
  (evt ← events.TimeUpdate.__init__ target data;
   mret (app.track_current_time evt)) = Ok data
  /\ (forall evt,
        events.TimelineChange.__init__ target data = Ok evt ->
        getitem data (KStr "timeline")
          = Ok (app.track_current_timeline_and_time evt).1
        /\ getitem data (KStr "time")
          = Ok (app.track_current_timeline_and_time evt).2).
Proof.
  split; [reflexivity|].
  intros evt. unfold events.TimelineChange.__init__. intros Hinit.
  destruct (getitem data (KStr "timeline")) as [timeline|]; [|discriminate].
  destruct (getitem data (KStr "time")) as [time|]; [|discriminate].
  injection Hinit as <-. split; reflexivity.
Qed.

Lemma tracked_time_is_payload_witness :
  getitem (VDict Samples.timeline_payload) (KStr "timeline")
    = Ok (VStr "iteration")
  /\ getitem (VDict Samples.timeline_payload) (KStr "time") = Ok (VInt 3).
Proof.
  apply (proj2 (tracked_time_is_payload tt (VDict Samples.timeline_payload))
           (events.TimelineChange.mk
              (mkEventData tt (VDict Samples.timeline_payload))
              (VStr "iteration") (VInt 3))).
  vm_compute. reflexivity.
Defined.

(** * Further properties of the component *)

Section ComponentMore.
Context `{rerun.Host}.
Import rerun.

Lemma comprehension_urls (fs : FS) (xs : list source) :
  Forall (fun x => is_url x = true) xs ->
  comprehension (root_entry fs) xs = Ok (EKeep <$> xs).
Proof.
  induction 1 as [|x xs Hx _ IH]; simpl; [reflexivity|].
  rewrite (root_entry_url _ _ Hx). simpl. by rewrite IH.
Qed.

(** X14: a list of URL strings is returned as it is, entry for entry,
    on every file system: no file is looked for. *)
Theorem postprocess_urls (self : Rerun) (xs : list source) (fs : FS) :
  Forall Spec.url_string xs ->
  postprocess self (AList xs) fs
    = (Ok (OData (mkRerunData (EKeep <$> xs))), fs).
Proof.
  intros Hurls. simpl. rewrite comprehension_urls; [reflexivity|].
  eapply Forall_impl; [exact Hurls|]. intros x. apply is_url_true.
Qed.

(** X15: the first element that is not a URL string and on whose path
    [stat] raises ends [postprocess] with the exception [stat] raises
    for it ([OSError] for a missing file, [ValueError] for a path with a
    null character), whatever follows it, and the file system is left
    as it was. *)
Theorem postprocess_first_missing (self : Rerun) (pre post : list source)
    (x : source) (fs : FS) :
  Forall (fun y => Spec.is_Ok (root_entry fs y) = true) pre ->
  is_url x = false ->
  st_size fs (Path_ x) = None ->
  postprocess self (AList (pre ++ x :: post)) fs
    = (Raise (stat_error fs (Path_ x)), fs).
Proof.
  intros Hpre Hurl Hsize. simpl.
  rewrite (comprehension_first_raise _ _ _ _ _ Hpre
             (root_entry_missing _ _ Hurl Hsize)).
  reflexivity.
Qed.

(** X16: [postprocess] writes to the file system only for bytes given
    to a component that does not stream: on every other call the file
    system is left as it was, whether the call returns or raises. *)
Theorem postprocess_keeps_files (self : Rerun) (value : arg) (fs : FS) :
  streaming self = true \/ (forall b, value <> ABytes b) ->
  (postprocess self value fs).2 = fs.
Proof.
  intros Hcase. destruct value as [|b|x|xs]; try reflexivity.
  destruct Hcase as [Hstream|Hnot]; [|by destruct (Hnot b)].
  simpl. by rewrite Hstream.
Qed.

(** X17: a Path is never taken for a URL, even one that spells
    "http://...": alone, it becomes a [FileData] when [stat] gives the
    size of the file, and the call raises what [stat] raises when it
    does not. *)
Theorem postprocess_path (self : Rerun) (p : Path) (fs : FS) :
  postprocess self (ASource (SPath p)) fs
    = (match st_size fs p with
       | Some n =>
           Ok (OData (mkRerunData
                 [EFile (mkFileData (path_str p) (Some (Path_name p)) (Some n))]))
       | None => Raise (stat_error fs p)
       end, fs).
Proof. simpl. unfold root_entry. simpl. by destruct (st_size fs p). Qed.

(** X18: the sources of a list are handled one by one: when two lists
    are accepted, so is their concatenation, and its root is the
    concatenation of their roots. *)
Theorem postprocess_app (self : Rerun) (xs ys : list source) (fs : FS)
    (d1 d2 : RerunData) :
  postprocess self (AList xs) fs = (Ok (OData d1), fs) ->
  postprocess self (AList ys) fs = (Ok (OData d2), fs) ->
  postprocess self (AList (xs ++ ys)) fs
    = (Ok (OData (mkRerunData (root d1 ++ root d2)%list)), fs).
Proof.
  simpl. rewrite comprehension_app. intros Hxs Hys.
  destruct (comprehension (root_entry fs) xs) as [r1|]; [|discriminate].
  destruct (comprehension (root_entry fs) ys) as [r2|]; [|discriminate].
  simpl in *. injection Hxs as <-. injection Hys as <-. reflexivity.
Qed.

End ComponentMore.

Lemma postprocess_urls_witness :
  @rerun.postprocess Samples.memory_host Samples.viewer
      (rerun.example_value Samples.viewer) Samples.one_file
    = (Ok (rerun.OData (rerun.mkRerunData
         [rerun.EKeep (rerun.SStr "https://app.rerun.io/version/0.16.0/examples/detect_and_track_objects.rrd");
          rerun.EKeep (rerun.SStr "https://app.rerun.io/version/0.16.0/examples/dna.rrd")])),
       Samples.one_file).
Proof.
  apply (@postprocess_urls Samples.memory_host).
  repeat constructor; eexists; (split; [reflexivity|]); right; reflexivity.
Defined.

Lemma postprocess_first_missing_witness :
  @rerun.postprocess Samples.memory_host Samples.viewer
      (rerun.AList ([rerun.SStr "https://app.rerun.io/dna.rrd"]
                      ++ rerun.SPath (rerun.mkPath "/data/b.rrd")
                      :: [rerun.SStr "/data/a.rrd"]))
      Samples.one_file
    = (Raise (OSError "/data/b.rrd"), Samples.one_file).
Proof.
  apply (@postprocess_first_missing Samples.memory_host).
  - repeat constructor.
  - reflexivity.
  - reflexivity.
Defined.

Lemma postprocess_keeps_files_witness :
  (@rerun.postprocess Samples.memory_host Samples.viewer
     (rerun.AList Samples.two_sources) Samples.one_file).2
    = Samples.one_file.
Proof.
  apply (@postprocess_keeps_files Samples.memory_host).
  right. discriminate.
Defined.

Lemma postprocess_app_witness :
  @rerun.postprocess Samples.memory_host Samples.viewer
      (rerun.AList ([rerun.SStr "https://app.rerun.io/dna.rrd"]
                      ++ [rerun.SPath (rerun.mkPath "/data/a.rrd")]))
      Samples.one_file
    = (Ok (rerun.OData (rerun.mkRerunData
         [rerun.EKeep (rerun.SStr "https://app.rerun.io/dna.rrd");
          rerun.EFile (rerun.mkFileData "/data/a.rrd" (Some "a.rrd") (Some 4%Z))])),
       Samples.one_file).
Proof.
  apply (@postprocess_app Samples.memory_host Samples.viewer
           [rerun.SStr "https://app.rerun.io/dna.rrd"]
           [rerun.SPath (rerun.mkPath "/data/a.rrd")] Samples.one_file
           (rerun.mkRerunData
              [rerun.EKeep (rerun.SStr "https://app.rerun.io/dna.rrd")])
           (rerun.mkRerunData
              [rerun.EFile (rerun.mkFileData "/data/a.rrd" (Some "a.rrd")
                              (Some 4%Z))]));
    reflexivity.
Defined.

(** X19: the configuration sent to the frontend is that of the base
    class with the entry "panel_states" set to the component's panel
    states, present even when they are [None]; every other entry is
    kept, and an entry of that name in the base configuration is
    replaced. *)
Theorem get_config_panel_states (config : gmap string value)
    (self : rerun.Rerun) :
  rerun.get_config config self !! "panel_states"
    = Some (rerun.panel_states self)
  /\ (forall k, k <> "panel_states" ->
        rerun.get_config config self !! k = config !! k)
  /\ rerun.get_config (rerun.get_config config self) self
      = rerun.get_config config self.
Proof.
  unfold rerun.get_config. split; [apply lookup_insert_eq|]. split.
  - intros k Hk. by apply lookup_insert_ne.
  - apply insert_insert_eq.
Qed.

Lemma get_config_panel_states_witness :
  rerun.get_config {["label" := VStr "viewer"]} Samples.viewer !! "label"
    = Some (VStr "viewer").
Proof.
  rewrite (proj1 (proj2 (get_config_panel_states
                           {["label" := VStr "viewer"]} Samples.viewer)));
    [reflexivity | discriminate].
Defined.

(** X20: [stream_output] describes the stream by a dict that depends on
    the output id alone, with that id as "path" and "is_stream" true;
    it wraps the bytes it is given, unchanged, in a chunk, and gives no
    chunk exactly when it is given [None].  [first_chunk] plays no
    part. *)
Theorem stream_output_chunk (self self' : rerun.Rerun)
    (value value' : option rerun.bytes) (output_id : string)
    (first_chunk first_chunk' : bool) :
  (rerun.stream_output self value output_id first_chunk).2
    = (rerun.stream_output self' value' output_id first_chunk').2
  /\ getitem (rerun.stream_output self value output_id first_chunk).2
        (KStr "path") = Ok (VStr output_id)
  /\ getitem (rerun.stream_output self value output_id first_chunk).2
        (KStr "is_stream") = Ok (VBool true)
  /\ rerun.data <$> (rerun.stream_output self value output_id first_chunk).1
      = value.
Proof. destruct value, value'; repeat split; reflexivity. Qed.

(** * Properties of the demo's keypoints *)

Section KeypointsStore.
Import app.
Implicit Types (request : Request) (sequence : Z) (k : Keypoints).

(** X21: asking twice is asking once: the second call returns the same
    list and changes nothing; and a list that is Spec.recorded is returned
    without any change to the dict. *)
Theorem get_keypoints_idempotent request sequence k :
  get_keypoints_for_user_at_sequence_index request sequence
      (get_keypoints_for_user_at_sequence_index request sequence k).2
    = get_keypoints_for_user_at_sequence_index request sequence k
  /\ (forall keypoints,
        Spec.recorded k request sequence = Some keypoints ->
        get_keypoints_for_user_at_sequence_index request sequence k
          = (Ok keypoints, k)).
Proof.
  unfold get_keypoints_for_user_at_sequence_index, Spec.recorded. split.
  - destruct (k !! session_hash request) as [per_sequence|] eqn:Hs; simpl.
    + destruct (per_sequence !! sequence) as [keypoints|] eqn:Hq; simpl.
      * by rewrite Hs, Hq.
      * by rewrite lookup_insert_eq, lookup_insert_eq.
    + by rewrite Hs.
  - intros keypoints Hrec.
    destruct (k !! session_hash request) as [per_sequence|]; [|discriminate].
    simpl in Hrec. by rewrite Hrec.
Qed.

(** X22: after [initialize_instance] the session has no keypoints at
    any index, whatever was Spec.recorded for it before. *)
Theorem initialize_instance_empties request sequence k :
  (get_keypoints_for_user_at_sequence_index request sequence
     (initialize_instance request k)).1 = Ok [].
Proof.
  unfold get_keypoints_for_user_at_sequence_index, initialize_instance.
  by rewrite lookup_insert_eq, lookup_empty.
Qed.

(** X23: [cleanup_instance] forgets the session: afterwards it is
    unknown; on a session that is unknown already it changes nothing;
    and cleaning up a session that was initialised from unknown gives
    back the dict as it was. *)
Theorem cleanup_instance_forgets request k :
  cleanup_instance request k !! session_hash request = None
  /\ (k !! session_hash request = None -> cleanup_instance request k = k)
  /\ (k !! session_hash request = None ->
      cleanup_instance request (initialize_instance request k) = k).
Proof.
  unfold cleanup_instance, initialize_instance. repeat split.
  - case_bool_decide as Hs; [apply lookup_delete_eq|].
    by apply eq_None_not_Some.
  - intros Hnone. rewrite Hnone. by rewrite bool_decide_eq_false_2
      by (by intros [? [=]]).
  - intros Hnone. rewrite lookup_insert_eq.
    rewrite bool_decide_eq_true_2 by eauto.
    rewrite delete_insert_eq. by apply delete_id.
Qed.

(** X24: sessions do not see each other: initialising, cleaning up,
    reading and appending for one session leave every other session's
    keypoints as they were. *)
Theorem sessions_are_separate request sequence k (other : string) (x : value) :
  other <> session_hash request ->
  initialize_instance request k !! other = k !! other
  /\ cleanup_instance request k !! other = k !! other
  /\ (get_keypoints_for_user_at_sequence_index request sequence k).2 !! other
     = k !! other
  /\ append_keypoint request sequence x k !! other = k !! other.
Proof.
  intros Hother. repeat split.
  - unfold initialize_instance. by rewrite lookup_insert_ne.
  - unfold cleanup_instance. case_bool_decide; [|reflexivity].
    by rewrite lookup_delete_ne.
  - unfold get_keypoints_for_user_at_sequence_index.
    destruct (k !! session_hash request) as [per_sequence|]; [|reflexivity].
    destruct (per_sequence !! sequence); [reflexivity|]. simpl.
    by rewrite lookup_insert_ne.
  - unfold append_keypoint. by rewrite lookup_alter_ne.
Qed.

(** X25: an [append] on the list that was returned lands in the dict:
    the session then holds, at that index, the returned list with the
    new keypoint at its end, and its other indices are as before the
    call. *)
Theorem append_after_get request sequence k (keypoints : list value)
    (k' : Keypoints) (x : value) :
  get_keypoints_for_user_at_sequence_index request sequence k
    = (Ok keypoints, k') ->
  Spec.recorded (append_keypoint request sequence x k') request sequence
    = Some (keypoints ++ [x])%list
  /\ forall sequence', sequence' <> sequence ->
       Spec.recorded (append_keypoint request sequence x k') request sequence'
         = Spec.recorded k request sequence'.
Proof.
  unfold get_keypoints_for_user_at_sequence_index, append_keypoint,
    Spec.recorded.
  destruct (k !! session_hash request) as [per_sequence|] eqn:Hs;
    [|discriminate].
  destruct (per_sequence !! sequence) as [l|] eqn:Hq; intros [= <- <-].
  - split.
    + rewrite lookup_alter_eq, Hs. simpl. by rewrite lookup_alter_eq, Hq.
    + intros sequence' Hne. rewrite lookup_alter_eq, Hs. simpl.
      by rewrite lookup_alter_ne.
  - split.
    + rewrite lookup_alter_eq, lookup_insert_eq. simpl.
      by rewrite lookup_alter_eq, lookup_insert_eq.
    + intros sequence' Hne. rewrite lookup_alter_eq, lookup_insert_eq. simpl.
      rewrite lookup_alter_ne by done. by rewrite lookup_insert_ne.
Qed.

End KeypointsStore.

Lemma get_keypoints_idempotent_witness :
  app.get_keypoints_for_user_at_sequence_index Samples.alice 3
      {["alice" := {[3%Z := [VInt 7]]}]}
    = (Ok [VInt 7], {["alice" := {[3%Z := [VInt 7]]}]}).
Proof.
  apply (proj2 (get_keypoints_idempotent Samples.alice 3
                  {["alice" := {[3%Z := [VInt 7]]}]})).
  reflexivity.
Defined.

Lemma cleanup_instance_forgets_witness :
  app.cleanup_instance Samples.alice (app.initialize_instance Samples.alice ∅)
    = ∅.
Proof.
  apply (proj2 (proj2 (cleanup_instance_forgets Samples.alice ∅))).
  reflexivity.
Defined.

Lemma sessions_are_separate_witness :
  app.cleanup_instance Samples.alice {["bob" := {[0%Z := [VInt 1]]}]} !! "bob"
    = Some {[0%Z := [VInt 1]]}.
Proof.
  rewrite (proj1 (proj2 (sessions_are_separate Samples.alice 0
                           {["bob" := {[0%Z := [VInt 1]]}]} "bob" VNone
                           ltac:(discriminate)))).
  reflexivity.
Defined.

Lemma append_after_get_witness :
  Spec.recorded
    (app.append_keypoint Samples.alice 3 (VInt 8)
       {["alice" := {[3%Z := [VInt 7]]}]}) Samples.alice 3
    = Some [VInt 7; VInt 8].
Proof.
  destruct (append_after_get Samples.alice 3
              {["alice" := {[3%Z := [VInt 7]]}]} [VInt 7]
              {["alice" := {[3%Z := [VInt 7]]}]} (VInt 8)) as [Hrec _].
  - vm_compute. reflexivity.
  - exact Hrec.
Defined.

(** * Properties of the demo's selection callback *)

Section RegisterKeypoint.
Context `{app.PointsSdk} `{app.Builtins}.
Import app.

Lemma in_generator_call {A : Type} (f : World -> A * World) (s : hstate) :
  in_generator (call f) s
    = (Ok (f (world (generator s))).1,
       mkHstate (mkGstate (f (world (generator s))).2 (yielded (generator s)))
         (keypoints_per_session_per_sequence_index s)).
Proof. unfold in_generator, call. by destruct (f (world (generator s))). Qed.

Lemma handler_bind_run {A B : Type} (m : handler A) (f : A -> handler B)
    (s s' : hstate) (a : A) :
  m s = (Ok a, s') -> (m ≫= f) s = f a s'.
Proof. intros Hm. unfold mbind, handler_bind. by rewrite Hm. Qed.

Lemma handler_bind_raise {A B : Type} (m : handler A) (f : A -> handler B)
    (s s' : hstate) (e : exn) :
  m s = (Raise e, s') -> (m ≫= f) s = (Raise e, s').
Proof. intros Hm. unfold mbind, handler_bind. by rewrite Hm. Qed.

Lemma on_keypoints_run {A : Type} (f : Keypoints -> result A * Keypoints)
    (s : hstate) (r : result A) (k' : Keypoints) :
  f (keypoints_per_session_per_sequence_index s) = (r, k') ->
  on_keypoints f s = (r, mkHstate (generator s) k').
Proof. intros Hf. unfold on_keypoints. by rewrite Hf. Qed.


Lemma get_keypoints_unknown (request : Request) (index : Z) (k : Keypoints) :
  k !! session_hash request = None ->
  get_keypoints_for_user_at_sequence_index request index k
    = (Raise (KeyError (KStr (session_hash request))), k).
Proof.
  intros Hnone. unfold get_keypoints_for_user_at_sequence_index.
  by rewrite Hnone.
Qed.

Lemma in_generator_set_time (rec : RecordingStream) (timeline : string)
    (sequence : Z) (s : hstate) :
  int64 sequence = true ->
  in_generator (set_time rec timeline sequence) s
    = (Ok tt,
       mkHstate
         (mkGstate (set_time_sequence rec timeline sequence
                      (world (generator s)))
            (yielded (generator s)))
         (keypoints_per_session_per_sequence_index s)).
Proof. intros Hfits. unfold in_generator. by rewrite set_time_run. Qed.


Lemma in_generator_attempt {A : Type} (f : World -> result A * World)
    (s : hstate) (a : A) :
  (f (world (generator s))).1 = Ok a ->
  in_generator (attempt f) s
    = (Ok a,
       mkHstate (mkGstate (f (world (generator s))).2 (yielded (generator s)))
         (keypoints_per_session_per_sequence_index s)).
Proof.
  intros Hf. unfold in_generator, attempt.
  destruct (f (world (generator s))) as [r w']. simpl in Hf. by subst.
Qed.

Ltac handler_step :=
  lazymatch goal with
  | |- context [(in_generator (call ?f) ≫= ?k) ?s] =>
      rewrite (handler_bind_run _ k s _ _ (in_generator_call f s))
  | |- context [(in_generator (set_time ?rec ?tl ?i) ≫= ?k) ?s] =>
      rewrite (handler_bind_run _ k s _ _
                 (in_generator_set_time rec tl i s ltac:(eassumption)))
  | |- context [(in_generator (attempt ?f) ≫= ?k) ?s] =>
      rewrite (handler_bind_run _ k s _ _
                 (in_generator_attempt f s tt ltac:(auto)))
  | |- context [(in_generator (exec ?f) ≫= ?k) ?s] =>
      rewrite (handler_bind_run (in_generator (exec f)) k s _ _ eq_refl)
  | |- context [(try_ (Ok ?a) ≫= ?k) ?s] =>
      rewrite (handler_bind_run (try_ (Ok a)) k s _ _ eq_refl)
  | |- context [(on_keypoints ?f ≫= ?k') ?s] =>
      erewrite (handler_bind_run (on_keypoints f) k' s)
        by (apply on_keypoints_run; first [eassumption | reflexivity])
  end; cbn [generator keypoints_per_session_per_sequence_index world yielded].

(** The guards passed, the callback creates the streams and reads the
    index before it looks for the session. *)
Lemma register_keypoint_guards_passed {Block : Type}
    (active_recording_id : string) (current_time : value) (request : Request)
    (evt : events.SelectionChange.t Block) (e : events.EntitySelection.t)
    (s : hstate) :
  active_recording_id <> "" ->
  events.SelectionChange.items evt = [events.Entity e] ->
  is_not_None (events.EntitySelection.position e) = true ->
  register_keypoint active_recording_id (VStr "iteration") current_time
      request evt s
  = (rec ← in_generator (call (get_recording active_recording_id));
     stream ← in_generator (call (binary_stream rec));
     index ← try_ (math_floor current_time);
     keypoints ← on_keypoints
       (get_keypoints_for_user_at_sequence_index request index);
     keypoint ← try_ (slice_0_2 (events.EntitySelection.position e));
     on_keypoints (fun k => (Ok tt, append_keypoint request index keypoint k));;
     in_generator (set_time rec "iteration" index);;
     in_generator
       (attempt (log_points rec
                   (format_value (events.EntitySelection.entity_path e)
                      ++ "/keypoint")
                   (keypoints ++ [keypoint])%list 2%Z));;
     in_generator (exec (flush stream));;
     chunk ← in_generator (call (read stream));
     in_generator (yield chunk)) s.
Proof.
  intros Hid Hitems Hpos. unfold register_keypoint.
  apply String.eqb_neq in Hid. rewrite Hid, Hitems. simpl.
  unfold mbind at 1, handler_bind at 1. simpl.
  unfold mbind at 1, handler_bind at 1. simpl. rewrite Hpos. simpl.
  reflexivity.
Qed.

(** X26: the callback does nothing at all (no stream is created, nothing
    is yielded, no keypoint is recorded, nothing is raised) when no
    recording is active, when the timeline is not "iteration", when the
    selection is not a single item, or when that item is not an entity
    with a position. *)
Theorem register_keypoint_ignores {Block : Type}
    (active_recording_id : string) (current_timeline current_time : value)
    (request : Request) (evt : events.SelectionChange.t Block) (s : hstate) :
  active_recording_id = ""
  \/ eq_str current_timeline "iteration" = false
  \/ length (events.SelectionChange.items evt) <> 1
  \/ (exists item,
        events.SelectionChange.items evt = [item]
        /\ (events.kind item <> "entity" \/ item_position item = Ok VNone)) ->
  register_keypoint active_recording_id current_timeline current_time
      request evt s
    = (Ok tt, s).
Proof.
  intros Hcase. unfold register_keypoint.
  destruct (String.eqb active_recording_id "") eqn:Hid; [reflexivity|].
  destruct (eq_str current_timeline "iteration") eqn:Htl; [|reflexivity].
  cbn [negb].
  destruct (Nat.eqb (length (events.SelectionChange.items evt)) 1) eqn:Hlen;
    [|reflexivity].
  cbn [negb].
  apply String.eqb_neq in Hid. apply Nat.eqb_eq in Hlen.
  destruct Hcase as [?|[?|[?|(item & Hitems & Hitem)]]]; try done.
  rewrite Hitems. simpl.
  unfold mbind at 1, handler_bind at 1. simpl.
  destruct (String.eqb (events.kind item) "entity") eqn:Hkind; [|reflexivity].
  cbn [negb]. apply String.eqb_eq in Hkind.
  destruct Hitem as [?|Hpos]; [done|].
  unfold mbind at 1, handler_bind at 1. rewrite Hpos. reflexivity.
Qed.


(** X28: past the guards, a time that [math.floor] refuses, or a
    session that was never initialised, ends the callback with that
    exception ([KeyError] for the session): nothing is yielded and no
    keypoint is recorded. *)
Theorem register_keypoint_raises {Block : Type}
    (active_recording_id : string) (current_time : value) (request : Request)
    (evt : events.SelectionChange.t Block) (e : events.EntitySelection.t)
    (w : World) (k : Keypoints) :
  active_recording_id <> "" ->
  events.SelectionChange.items evt = [events.Entity e] ->
  is_not_None (events.EntitySelection.position e) = true ->
  (forall err, math_floor current_time = Raise err ->
     exists s',
       run_handler
           (register_keypoint active_recording_id (VStr "iteration")
              current_time request evt) w k
         = (Raise err, s')
       /\ yielded (generator s') = []
       /\ keypoints_per_session_per_sequence_index s' = k)
  /\ (forall index, math_floor current_time = Ok index ->
       k !! session_hash request = None ->
       exists s',
         run_handler
             (register_keypoint active_recording_id (VStr "iteration")
                current_time request evt) w k
           = (Raise (KeyError (KStr (session_hash request))), s')
         /\ yielded (generator s') = []
         /\ keypoints_per_session_per_sequence_index s' = k).
Proof.
  intros Hid Hitems Hpos. unfold run_handler.
  rewrite (register_keypoint_guards_passed _ _ _ _ _ _ Hid Hitems Hpos).
  split.
  - intros err Hfloor. rewrite Hfloor. do 2 handler_step.
    rewrite (handler_bind_raise (try_ (Raise err)) _ _ _ _ eq_refl).
    eexists. repeat split.
  - intros index Hfloor Hsession. rewrite Hfloor. do 3 handler_step.
    erewrite (handler_bind_raise (on_keypoints _))
      by (apply on_keypoints_run, get_keypoints_unknown, Hsession).
    eexists. repeat split.
Qed.


End RegisterKeypoint.

Lemma register_keypoint_ignores_witness :
  @app.register_keypoint Samples.counting_sdk Samples.counting_points_sdk
      Samples.counting_builtins unit "" (VStr "iteration")
      Samples.two_and_a_half Samples.alice Samples.click
      (@app.mkHstate Samples.counting_sdk
         (@app.mkGstate Samples.counting_sdk 0 []) ∅)
    = (Ok tt, @app.mkHstate Samples.counting_sdk
                (@app.mkGstate Samples.counting_sdk 0 []) ∅).
Proof.
  apply (@register_keypoint_ignores Samples.counting_sdk
           Samples.counting_points_sdk Samples.counting_builtins).
  left. reflexivity.
Defined.


Lemma register_keypoint_raises_witness :
  exists s',
    @app.run_handler Samples.counting_sdk _
        (@app.register_keypoint Samples.counting_sdk
           Samples.counting_points_sdk Samples.counting_builtins unit
           "r" (VStr "iteration") Samples.two_and_a_half Samples.alice
           Samples.click) 0 ∅
      = (Raise (KeyError (KStr "alice")), s')
    /\ app.yielded (app.generator s') = []
    /\ app.keypoints_per_session_per_sequence_index s' = ∅.
Proof.
  apply (proj2 (@register_keypoint_raises Samples.counting_sdk
                  Samples.counting_points_sdk Samples.counting_builtins unit
                  "r" Samples.two_and_a_half Samples.alice Samples.click
                  (events.EntitySelection.mk (VStr "image/blurred") VNone VNone
                     (VTuple [VInt 10; VInt 20; VInt 0]))
                  0 ∅ ltac:(discriminate) eq_refl eq_refl) 2%Z);
    reflexivity.
Defined.


(** * The model on inputs that are easy to get wrong *)

(** A position given as a string is indexed by code point: "éa" has two
    and is refused, and of "日本語x" the first three are taken. *)
Example entity_position_string :
  events._selection_item_from_json
      (Samples.dict [("type", VStr "entity"); ("entity_path", VStr "w");
                     ("position", VStr "éa")])
    = Raise IndexError
  /\ events._selection_item_from_json
       (Samples.dict [("type", VStr "entity"); ("entity_path", VStr "w");
                      ("position", VStr "日本語x")])
     = Ok (events.Entity
             (events.EntitySelection.mk (VStr "w") VNone VNone
                (VTuple [VStr "日"; VStr "本"; VStr "語"]))).
Proof. split; vm_compute; reflexivity. Qed.

(** A view with a position that could not be read parses all the same. *)
Example view_position_unread :
  events._selection_item_from_json
      (Samples.dict [("type", VStr "view"); ("view_id", VStr "v1");
                     ("view_name", VStr "3D"); ("position", VList [VInt 1])])
    = Ok (events.View (events.ViewSelection.mk (VStr "v1") (VStr "3D"))).
Proof. vm_compute. reflexivity. Qed.

(** At the time 10^19 the keypoint is recorded and [set_time] then
    raises [OverflowError]; nothing is yielded. *)
Example register_keypoint_overflow :
  let r :=
    @app.run_handler Samples.counting_sdk _
      (@app.register_keypoint Samples.counting_sdk Samples.counting_points_sdk
         Samples.counting_builtins unit "r" (VStr "iteration")
         (VInt (10 ^ 19)) Samples.alice Samples.click)
      0 {["alice" := ∅]} in
  r.1 = Raise OverflowError
  /\ app.yielded (app.generator r.2) = []
  /\ Spec.recorded (app.keypoints_per_session_per_sequence_index r.2)
       Samples.alice (10 ^ 19)
     = Some [VTuple [VInt 10; VInt 20]].
Proof. repeat split; vm_compute; reflexivity. Qed.
